(** * paintball-tracker: the real-time session / broadcast engine of [main.py]

    A shallow embedding of the server's in-memory registry
    ([ConnectionManager]), the admin observer list, the two tables of the
    relational store, the token check and the three entry points
    ([websocket_user], [websocket_admin], [get_history]), followed by the
    properties of the specification that concern them.

    Python dictionaries keyed by user name are [gmap string _]; the admin
    observer list and the tables are lists (order and multiplicity matter
    for [list.remove] and for the query).  Code that can raise runs in a
    state-and-exception monad in which the state reached before the
    exception is kept, as in Python. *)

From Stdlib Require Import ZArith String List Lia Permutation Sorted QArith.
From stdpp Require Import gmap strings list fin_maps sorting.

Open Scope string_scope.
Open Scope list_scope.

(** ** Data *)

(** A value produced by [json.loads] / consumed by [json.dumps].  A JSON
    object is the list of its items; [dict.get] reads the first item with
    the key. *)
#[local] Unset Elimination Schemes.
Inductive json (F : Type) : Type :=
| JNull
| JBool (b : bool)
| JInt (z : Z)
| JFloat (f : F)
| JString (s : string)
| JArray (l : list (json F))
| JObject (items : list (string * json F)).
#[local] Set Elimination Schemes.

Arguments JNull {F}.
Arguments JBool {F} b.
Arguments JInt {F} z.
Arguments JFloat {F} f.
Arguments JString {F} s.
Arguments JArray {F} l.
Arguments JObject {F} items.

(** The decoded claims of a token.  [jose] only hands back a payload whose
    [sub], when present, is a string. *)
Record Claims := mkClaims {
  claim_sub : option string;
  claim_is_admin : option Z;
  claim_exp : option Z
}.

(** A connection object; two connections are two different handles. *)
Definition WebSocket := nat.

(** Python exceptions the code raises or catches. *)
Inductive exn :=
| WebSocketDisconnect
| HTTPException (status_code : Z) (detail : string)
| JSONDecodeError
| AttributeError
| TypeError
| ValueError
| OverflowError
| SendError.

(** [is_Exception e]: [e] is caught by [except Exception] (all of the above
    derive from [Exception]). *)
Definition is_Exception (e : exn) : bool := true.

Definition is_HTTPException (e : exn) : bool :=
  match e with HTTPException _ _ => true | _ => false end.

Definition is_WebSocketDisconnect (e : exn) : bool :=
  match e with WebSocketDisconnect => true | _ => false end.

(** Rows of table [users]. *)
Record User := mkUser {
  user_id : Z;
  user_username : string;
  user_hashed_password : string;
  user_is_admin : Z
}.

(** ** A concrete environment

    Used to run the handlers on explicit inputs: floats are rationals, and
    the library functions are given on the few texts and tokens of the
    examples (texts are written with apostrophes around the keys). *)
Module TestEnv.

Definition float : Type := Q.

Definition float_of_int (z : Z) : option float := Some (inject_Z z).

Definition float_of_str (s : string) : option float :=
  if String.eqb s "37.1" then Some (371 # 10)%Q
  else if String.eqb s "-122.2" then Some (-1222 # 10)%Q
  else None.

Definition json_loads (data : string) : option (json float) :=
  if String.eqb data "{'lat': 37.1, 'lon': -122.2}" then
    Some (JObject [("lat", JFloat (371 # 10)%Q); ("lon", JFloat (-1222 # 10)%Q)])
  else if String.eqb data "{'lat': '37.1', 'lon': '-122.2'}" then
    Some (JObject [("lat", JString "37.1"); ("lon", JString "-122.2")])
  else if String.eqb data "{'lat': 1, 'lon': 2}" then
    Some (JObject [("lat", JInt 1); ("lon", JInt 2)])
  else if String.eqb data "{'lat': 37.1}" then
    Some (JObject [("lat", JFloat (371 # 10)%Q)])
  else if String.eqb data "{'lat': 'north', 'lon': 2}" then
    Some (JObject [("lat", JString "north"); ("lon", JInt 2)])
  else if String.eqb data "[1, 2]" then
    Some (JArray [JInt 1; JInt 2])
  else None.

Definition jwt_decode (token : string) : option Claims :=
  if String.eqb token "token-u1" then
    Some (mkClaims (Some "u1") (Some 0%Z) (Some 86400%Z))
  else if String.eqb token "token-admin1" then
    Some (mkClaims (Some "admin1") (Some 1%Z) (Some 86400%Z))
  else if String.eqb token "token-ghost" then
    Some (mkClaims (Some "ghost") (Some 1%Z) (Some 86400%Z))
  else if String.eqb token "token-nosub" then
    Some (mkClaims None (Some 0%Z) (Some 86400%Z))
  else None.

(** The table [users] after [create_admin()] and one registration. *)
Definition users0 : list User :=
  [mkUser 1 "admin1" "$2b$admin123" 1; mkUser 2 "u1" "$2b$secret" 0].

Definition all_ok (ws : WebSocket) : bool := true.

(** Every peer can be written to but number 8. *)
Definition all_but_8 (ws : WebSocket) : bool := negb (Nat.eqb ws 8).

(** A stand-in for the password hasher: the salt followed by the
    password; the salt has four characters. *)
Definition pwd_hash (salt password : string) : string :=
  String.append salt password.

Definition pwd_verify (password hashed : string) : bool :=
  String.eqb (String.substring 4 (String.length hashed - 4) hashed) password.

Definition jwt_encode (c : Claims) : string :=
  match claim_sub c with
  | Some sub => String.append "token-" sub
  | None => "token-nosub"
  end.

(** A parser that knows one more text, with booleans for coordinates. *)
Definition json_loads2 (data : string) : option (json float) :=
  if String.eqb data "{'lat': true, 'lon': false}" then
    Some (JObject [("lat", JBool true); ("lon", JBool false)])
  else json_loads data.

(** A decoder that knows one more token of ["u1"], with other claims. *)
Definition jwt_decode2 (token : string) : option Claims :=
  if String.eqb token "token-u1-elevated" then
    Some (mkClaims (Some "u1") (Some 1%Z) (Some 99999%Z))
  else jwt_decode token.

End TestEnv.

Section Engine.

(** The float type of the interpreter and the library functions the code
    calls on inputs: [float(int)], [float(str)], [json.loads], [jwt.decode]
    (under the process key and algorithm).  [None] is the exception the
    call raises. *)
Variable float : Type.
Variable float_of_int : Z -> option float.
Variable float_of_str : string -> option float.
Variable json_loads : string -> option (json float).
Variable jwt_decode : string -> option Claims.

(** [jwt.encode] (same key and algorithm), and the password hasher:
    [pwd_context.hash] draws a salt, given here as its first argument;
    [pwd_context.verify password hashed]. *)
Variable jwt_encode : Claims -> string.
Variable pwd_hash : string -> string -> string.
Variable pwd_verify : string -> string -> bool.

(** The dictionary [{"lat": lat, "lon": lon, "ts": ts}]. *)
Record Sample := mkSample {
  lat : float;
  lon : float;
  ts : Z
}.

(** Rows of table [locations]. *)
Record Location := mkLocation {
  loc_id : Z;
  loc_username : string;
  loc_lat : float;
  loc_lon : float;
  loc_timestamp : Z
}.

(** What a connection object was asked to do, in order.  A text message is
    recorded as the value given to [json.dumps]. *)
Inductive ws_event :=
| EvAccept (ws : WebSocket)
| EvClose (ws : WebSocket) (code : Z)
| EvSend (ws : WebSocket) (msg : json float)
| EvSendFailed (ws : WebSocket) (msg : json float).

(** [class ConnectionManager] *)
Record ConnectionManager := mkManager {
  active_connections : gmap string WebSocket;
  latest : gmap string Sample;
  history : gmap string (list Sample)
}.

(** The process state: [manager], [admin_connections], the two tables and
    the log of what was done on the connections. *)
Record World := mkWorld {
  manager : ConnectionManager;
  admin_connections : list WebSocket;
  users : list User;
  locations : list Location;
  wire : list ws_event
}.

Definition set_manager (m : ConnectionManager) (w : World) : World :=
  mkWorld m (admin_connections w) (users w) (locations w) (wire w).

Definition set_admin_connections (l : list WebSocket) (w : World) : World :=
  mkWorld (manager w) l (users w) (locations w) (wire w).

Definition set_locations (l : list Location) (w : World) : World :=
  mkWorld (manager w) (admin_connections w) (users w) l (wire w).

Definition log_event (e : ws_event) (w : World) : World :=
  mkWorld (manager w) (admin_connections w) (users w) (locations w)
          (wire w ++ [e]).

(** ** The monad of the handlers *)

Definition M (A : Type) : Type := World -> World * (exn + A).

Definition ret {A} (a : A) : M A := fun w => (w, inr a).

Definition bind {A B} (m : M A) (k : A -> M B) : M B :=
  fun w => match m w with
           | (w', inl e) => (w', inl e)
           | (w', inr a) => k a w'
           end.

Definition raise {A} (e : exn) : M A := fun w => (w, inl e).

(** [try: body  except C1: h1  except C2: h2 ...]: the first clause whose
    class matches runs; an exception raised by a handler is not caught by
    the later clauses. *)
Fixpoint select_handler {A} (e : exn) (clauses : list ((exn -> bool) * M A))
    : option (M A) :=
  match clauses with
  | [] => None
  | (handles, handler) :: rest =>
      if handles e then Some handler else select_handler e rest
  end.

Definition try_except {A} (body : M A) (clauses : list ((exn -> bool) * M A))
    : M A :=
  fun w => match body w with
           | (w', inl e) =>
               match select_handler e clauses with
               | Some handler => handler w'
               | None => (w', inl e)
               end
           | (w', inr a) => (w', inr a)
           end.

Definition get : M World := fun w => (w, inr w).
Definition modify (f : World -> World) : M unit := fun w => (f w, inr tt).

Definition lift_option {A} (o : option A) (e : exn) : M A :=
  match o with Some a => ret a | None => raise e end.

Definition lift_result {A} (r : exn + A) : M A := fun w => (w, r).

Notation "x <- c1 ;; c2" := (bind c1 (fun x => c2))
  (at level 20, c1 at level 99, c2 at level 200, only parsing).
Notation "c1 ;;; c2" := (bind c1 (fun _ => c2))
  (at level 100, c2 at level 200, right associativity, only parsing).

(** ** Token check *)

(** [verify_token]: the [HTTPException] raised inside the [try] is not a
    [JWTError] and leaves the function. *)
Definition verify_token (token : string) : exn + string :=
  match jwt_decode token with
  | Some payload =>
      match claim_sub payload with
      | None => inl (HTTPException 401 "Invalid token")
      | Some username => inr username
      end
  | None => inl (HTTPException 401 "Invalid token")
  end.

(** ** ConnectionManager *)

Definition manager_connect (username : string) (websocket : WebSocket) : M unit :=
  modify (log_event (EvAccept websocket)) ;;;
  modify (fun w =>
    let m := manager w in
    set_manager (mkManager (<[username := websocket]> (active_connections m))
                           (latest m) (history m)) w).

Definition manager_disconnect (username : string) : M unit :=
  modify (fun w =>
    let m := manager w in
    match active_connections m !! username with
    | Some _ => set_manager (mkManager (delete username (active_connections m))
                                       (latest m) (history m)) w
    | None => w
    end).

(** Lines 161-164 of [websocket_user]: overwrite [latest], append to the
    history list created on first use, drop the head once the list is
    longer than 200. *)
Definition history_cap : nat := 200.

Definition record_sample (username : string) (s : Sample)
    (m : ConnectionManager) : ConnectionManager :=
  let lst := default [] (history m !! username) ++ [s] in
  let lst' := if decide (history_cap < length lst) then drop 1 lst else lst in
  mkManager (active_connections m)
            (<[username := s]> (latest m))
            (<[username := lst']> (history m)).

(** ** Reading a position out of a message *)

(** [d.get(key)] on the items of a dictionary: [None] when absent. *)
Fixpoint dict_get (key : string) (items : list (string * json float))
    : json float :=
  match items with
  | [] => JNull
  | (k, v) :: rest => if String.eqb k key then v else dict_get key rest
  end.

(** [obj.get(key)]: only a dictionary has [get]. *)
Definition obj_get (obj : json float) (key : string) : exn + json float :=
  match obj with
  | JObject items => inr (dict_get key items)
  | _ => inl AttributeError
  end.

Definition option_to_result {A} (o : option A) (e : exn) : exn + A :=
  match o with Some a => inr a | None => inl e end.

(** [float(v)] for a value that came out of [json.loads]. *)
Definition py_float (v : json float) : exn + float :=
  match v with
  | JFloat f => inr f
  | JInt z => option_to_result (float_of_int z) OverflowError
  | JBool b => option_to_result (float_of_int (if b then 1 else 0)%Z) OverflowError
  | JString s => option_to_result (float_of_str s) ValueError
  | JNull => inl TypeError
  | JArray _ => inl TypeError
  | JObject _ => inl TypeError
  end.

(** ** The admin observer list *)

(** [l.remove(x)]: drops the first occurrence, [None] is [ValueError]. *)
Fixpoint list_remove (x : WebSocket) (l : list WebSocket)
    : option (list WebSocket) :=
  match l with
  | [] => None
  | y :: l' =>
      if Nat.eqb y x then Some l'
      else match list_remove x l' with
           | Some r => Some (y :: r)
           | None => None
           end
  end.

Definition admin_remove (ws : WebSocket) : M unit :=
  fun w => match list_remove ws (admin_connections w) with
           | Some l => (set_admin_connections l w, inr tt)
           | None => (w, inl ValueError)
           end.

(** [await ws.send_text(json.dumps(msg))]; [send_ok] tells which peers can
    still be written to. *)
Definition send_text (send_ok : WebSocket -> bool) (ws : WebSocket)
    (msg : json float) : M unit :=
  if send_ok ws then modify (log_event (EvSend ws msg))
  else (modify (log_event (EvSendFailed ws msg)) ;;; raise SendError).

(** Lines 171-178: the loop over the copy [list(admin_connections)]. *)
Fixpoint broadcast_loop (send_ok : WebSocket -> bool)
    (snapshot : list WebSocket) (payload : json float) : M unit :=
  match snapshot with
  | [] => ret tt
  | admin_ws :: rest =>
      try_except (send_text send_ok admin_ws payload)
        [(is_Exception,
          try_except (admin_remove admin_ws) [(fun _ => true, ret tt)])] ;;;
      broadcast_loop send_ok rest payload
  end.

Definition broadcast (send_ok : WebSocket -> bool) (payload : json float)
    : M unit :=
  w <- get ;;
  broadcast_loop send_ok (admin_connections w) payload.

(** ** The store *)

(** [db.add(loc); db.commit()]: the key is the next row number.  The store
    is taken to accept every row. *)
Definition db_add_location (username : string) (lat lon : float) (ts : Z)
    : M unit :=
  modify (fun w =>
    set_locations
      (locations w ++
       [mkLocation (Z.of_nat (S (length (locations w)))) username lat lon ts])
      w).

(** [db.query(User).filter(User.username == username).first()] *)
Definition db_first_user (username : string) (w : World) : option User :=
  find (fun u => String.eqb (user_username u) username) (users w).

(** ** The tracked-user entry point *)

Definition update_payload (username : string) (lat lon : float) (ts : Z)
    : json float :=
  JObject [("type", JString "update"); ("username", JString username);
           ("lat", JFloat lat); ("lon", JFloat lon); ("ts", JInt ts)].

(** Lines 157-159: [json.loads], then [float(obj.get(...))] twice. *)
Definition parse_position (data : string) : exn + (float * float) :=
  match option_to_result (json_loads data) JSONDecodeError with
  | inl e => inl e
  | inr obj =>
      match obj_get obj "lat" with
      | inl e => inl e
      | inr vlat =>
          match py_float vlat with
          | inl e => inl e
          | inr lat =>
              match obj_get obj "lon" with
              | inl e => inl e
              | inr vlon =>
                  match py_float vlon with
                  | inl e => inl e
                  | inr lon => inr (lat, lon)
                  end
              end
          end
      end
  end.

(** One turn of the [while True] loop of [websocket_user] on the text
    [data], with clock reading [now]. *)
Definition user_message (username : string) (data : string) (now : Z)
    (send_ok : WebSocket -> bool) : M unit :=
  pos <- lift_result (parse_position data) ;;
  let lat := fst pos in
  let lon := snd pos in
  let ts := now in
  modify (fun w =>
    set_manager (record_sample username (mkSample lat lon ts) (manager w)) w) ;;;
  db_add_location username lat lon ts ;;;
  broadcast send_ok (update_payload username lat lon ts).

(** What [receive_text] gives on each turn: a text (with the clock reading
    and the reachability of the admins during that turn) or the
    disconnection of the peer. *)
Inductive incoming :=
| Text (data : string) (now : Z) (send_ok : WebSocket -> bool)
| Disconnect.

(** Where a handler stands once its inputs are consumed: returned, or
    waiting in [receive_text]. *)
Inductive conn_status := Closed | Waiting.

Fixpoint user_loop (username : string) (inputs : list incoming)
    : M conn_status :=
  match inputs with
  | [] => ret Waiting
  | Disconnect :: _ => raise WebSocketDisconnect
  | Text data now send_ok :: rest =>
      user_message username data now send_ok ;;;
      user_loop username rest
  end.

Definition ws_close (websocket : WebSocket) (code : Z) : M unit :=
  modify (log_event (EvClose websocket code)).

(** The first lines of both websocket handlers. *)
Definition authenticate (websocket : WebSocket) (token : string)
    : M (option string) :=
  try_except (username <- lift_result (verify_token token) ;; ret (Some username))
    [(is_HTTPException, ws_close websocket 1008 ;;; ret None)].

Definition websocket_user (websocket : WebSocket) (token : string)
    (inputs : list incoming) : M conn_status :=
  r <- authenticate websocket token ;;
  match r with
  | None => ret Closed
  | Some username =>
      manager_connect username websocket ;;;
      try_except (user_loop username inputs)
        [(is_WebSocketDisconnect, manager_disconnect username ;;; ret Closed);
         (is_Exception, manager_disconnect username ;;; ret Closed)]
  end.

(** ** The admin entry point *)

Definition sample_json (s : Sample) : json float :=
  JObject [("lat", JFloat (lat s)); ("lon", JFloat (lon s)); ("ts", JInt (ts s))].

(** [{"type": "initial", "latest": manager.latest, "history":
    manager.history}]; the order of the keys of the two maps is not
    modelled. *)
Definition initial_payload (m : ConnectionManager) : json float :=
  JObject
    [("type", JString "initial");
     ("latest",
      JObject (map (fun kv => (fst kv, sample_json (snd kv)))
                   (map_to_list (latest m))));
     ("history",
      JObject (map (fun kv => (fst kv, JArray (map sample_json (snd kv))))
                   (map_to_list (history m))))].

Inductive admin_incoming :=
| AdminText (data : string)
| AdminDisconnect.

Fixpoint admin_loop (inputs : list admin_incoming) : M conn_status :=
  match inputs with
  | [] => ret Waiting
  | AdminDisconnect :: _ => raise WebSocketDisconnect
  | AdminText _ :: rest => admin_loop rest
  end.

Definition websocket_admin (websocket : WebSocket) (token : string)
    (send_ok : WebSocket -> bool) (inputs : list admin_incoming)
    : M conn_status :=
  r <- authenticate websocket token ;;
  match r with
  | None => ret Closed
  | Some username =>
      w <- get ;;
      let user := db_first_user username w in
      if match user with
         | None => true
         | Some u => Z.eqb (user_is_admin u) 0
         end
      then ws_close websocket 1008 ;;; ret Closed
      else
        modify (log_event (EvAccept websocket)) ;;;
        modify (fun w => set_admin_connections (admin_connections w ++ [websocket]) w) ;;;
        w <- get ;;
        send_text send_ok websocket (initial_payload (manager w)) ;;;
        try_except (admin_loop inputs)
          [(is_WebSocketDisconnect,
            try_except (admin_remove websocket) [(fun _ => true, ret tt)] ;;;
            ret Closed)]
  end.

(** ** The history query *)

(** [ORDER BY timestamp DESC]: rows of equal timestamp stay in table
    order here; SQL leaves their order open, and the properties below do
    not depend on it. *)
Fixpoint insert_desc (r : Location) (l : list Location) : list Location :=
  match l with
  | [] => [r]
  | x :: l' =>
      if Z.leb (loc_timestamp x) (loc_timestamp r) then r :: x :: l'
      else x :: insert_desc r l'
  end.

Definition order_by_timestamp_desc (l : list Location) : list Location :=
  foldr insert_desc [] l.

Definition query_locations (username : string) (w : World) : list Location :=
  take 200
    (order_by_timestamp_desc
       (List.filter (fun r => String.eqb (loc_username r) username) (locations w))).

Definition get_history (username : string) (token : string) (w : World)
    : exn + list Sample :=
  match verify_token token with
  | inl e => inl e
  | inr _ =>
      inr (map (fun r => mkSample (loc_lat r) (loc_lon r) (loc_timestamp r))
               (query_locations username w))
  end.

(** ** Process start and schedules *)

(** [manager = ConnectionManager()], [admin_connections = []], on top of
    the tables found in the store. *)
Definition initial_world (us : list User) (locs : list Location) : World :=
  mkWorld (mkManager ∅ ∅ ∅) [] us locs [].

Definition set_users (us : list User) (w : World) : World :=
  mkWorld (manager w) (admin_connections w) us (locations w) (wire w).

Definition history_of (username : string) (w : World) : list Sample :=
  default [] (history (manager w) !! username).

(** One turn of the loop of the connection of [turn_user], inside the
    [try] of [websocket_user]. *)
Record turn := mkTurn {
  turn_user : string;
  turn_data : string;
  turn_now : Z;
  turn_send_ok : WebSocket -> bool
}.

Definition run_turn (t : turn) : M unit :=
  try_except
    (user_message (turn_user t) (turn_data t) (turn_now t) (turn_send_ok t))
    [(is_WebSocketDisconnect, manager_disconnect (turn_user t));
     (is_Exception, manager_disconnect (turn_user t))].

(** A schedule: the order in which the turns of the connected users run.
    A turn is taken in one piece: the registry and the store are written
    before the first [await] of the turn, and the observer list only
    loses the observers whose send failed, so these do not depend on how
    the sends of different turns interleave.  The order in which the
    messages of different users reach an observer does; for it see
    [steps]. *)
Fixpoint run_turns (sched : list turn) (w : World) : World :=
  match sched with
  | [] => w
  | t :: rest => run_turns rest (fst (run_turn t w))
  end.

(** The sample a turn records, when its text is a position. *)
Definition turn_sample (t : turn) : option Sample :=
  match parse_position (turn_data t) with
  | inr pos => Some (mkSample (fst pos) (snd pos) (turn_now t))
  | inl _ => None
  end.

Definition samples_of (username : string) (sched : list turn) : list Sample :=
  omap (fun t => if decide (turn_user t = username) then turn_sample t else None)
       sched.

(** What one admin sees of a broadcast. *)
Definition attempt (send_ok : WebSocket -> bool) (payload : json float)
    (ws : WebSocket) : ws_event :=
  if send_ok ws then EvSend ws payload else EvSendFailed ws payload.

(** The update message in the words of the specification:
    [{type: "update", identity, lat, lon, ts}]. *)
Definition spec_update_message (identity : string) (lat lon : float) (ts : Z)
    : json float :=
  JObject [("type", JString "update"); ("identity", JString identity);
           ("lat", JFloat lat); ("lon", JFloat lon); ("ts", JInt ts)].

(** A value that [float()] refuses for want of a number: [None] (also the
    result of [get] on an absent key), a list, a dictionary, or a string
    that does not spell a number. *)
Definition not_numeric (v : json float) : bool :=
  match v with
  | JNull => true
  | JArray _ => true
  | JObject _ => true
  | JString s => match float_of_str s with None => true | Some _ => false end
  | JBool _ => false
  | JInt _ => false
  | JFloat _ => false
  end.

(** A text that is not a position: it does not parse, is not a JSON
    object, or its [lat] or [lon] is missing or not numeric. *)
Definition malformed (data : string) : bool :=
  match json_loads data with
  | None => true
  | Some (JObject items) =>
      not_numeric (dict_get "lat" items) || not_numeric (dict_get "lon" items)
  | Some _ => true
  end.

(** [a] is at least as recent as [b]. *)
Definition newer_or_equal (a b : Location) : Prop :=
  (loc_timestamp b <= loc_timestamp a)%Z.

Definition stored_for (username : string) (w : World) : list Location :=
  List.filter (fun r => String.eqb (loc_username r) username) (locations w).

Definition row_sample (r : Location) : Sample :=
  mkSample (loc_lat r) (loc_lon r) (loc_timestamp r).

(** The state right after [manager.connect(username, websocket)]. *)
Definition connected (username : string) (websocket : WebSocket) (w : World)
    : World :=
  mkWorld (mkManager (<[username := websocket]> (active_connections (manager w)))
                     (latest (manager w)) (history (manager w)))
          (admin_connections w) (users w) (locations w)
          (wire w ++ [EvAccept websocket]).

(** ** Accounts and tokens *)

Definition ACCESS_TOKEN_EXPIRE_SECONDS : Z := 60 * 60 * 24.

(** [create_access_token]: the copy of [data] with [exp] set. *)
Definition create_access_token (data : Claims) (now : Z) : string :=
  jwt_encode (mkClaims (claim_sub data) (claim_is_admin data)
                       (Some (now + ACCESS_TOKEN_EXPIRE_SECONDS)%Z)).

(** [db.add(User(...)); db.commit()] *)
Definition db_add_user (username hashed : string) (is_admin : Z) : M unit :=
  modify (fun w =>
    set_users
      (users w ++
       [mkUser (Z.of_nat (S (length (users w)))) username hashed is_admin])
      w).

(** [create_admin], run once at start. *)
Definition create_admin (salt : string) : M unit :=
  w <- get ;;
  match db_first_user "admin1" w with
  | Some _ => ret tt
  | None => db_add_user "admin1" (pwd_hash salt "admin123") 1
  end.

Record RedirectResponse := mkRedirect {
  redirect_url : string;
  redirect_status : Z
}.

(** [POST /register] *)
Definition register (username password salt : string) : M RedirectResponse :=
  w <- get ;;
  match db_first_user username w with
  | Some _ => ret (mkRedirect "/register?error=exists" 302)
  | None =>
      db_add_user username (pwd_hash salt password) 0 ;;;
      ret (mkRedirect "/login?registered=1" 302)
  end.

Record TokenResponse := mkTokenResponse {
  access_token : string;
  token_type : string
}.

(** [POST /token] *)
Definition login_for_access_token (username password : string) (now : Z)
    : M TokenResponse :=
  w <- get ;;
  let user := db_first_user username w in
  match user with
  | None => raise (HTTPException 400 "Incorrect username or password")
  | Some u =>
      if pwd_verify password (user_hashed_password u) then
        let token :=
          create_access_token
            (mkClaims (Some username) (Some (user_is_admin u)) None) now in
        ret (mkTokenResponse token "bearer")
      else raise (HTTPException 400 "Incorrect username or password")
  end.

(** ** Views used in the statements *)

(** The [try] statement of [websocket_user], from its wait point on. *)
Definition user_session (username : string) (inputs : list incoming)
    : M conn_status :=
  try_except (user_loop username inputs)
    [(is_WebSocketDisconnect, manager_disconnect username ;;; ret Closed);
     (is_Exception, manager_disconnect username ;;; ret Closed)].

(** The texts the peer [ws] was sent, in order. *)
Definition received (ws : WebSocket) (w : World) : list (json float) :=
  omap (fun e => match e with
                 | EvSend a msg => if Nat.eqb a ws then Some msg else None
                 | _ => None
                 end)
       (wire w).

(** The row a turn stores, but for its key. *)
Definition row_fields (r : Location) : string * Sample :=
  (loc_username r, row_sample r).

Definition turn_fields (t : turn) : option (string * Sample) :=
  match turn_sample t with
  | Some s => Some (turn_user t, s)
  | None => None
  end.

Definition usernames (w : World) : list string :=
  map user_username (users w).

(** A sequence of registration requests [(username, password, salt)]. *)
Fixpoint run_registrations (reqs : list (string * string * string)) (w : World)
    : World :=
  match reqs with
  | [] => w
  | (username, password, salt) :: rest =>
      run_registrations rest (fst (register username password salt w))
  end.

(** The turn's text is a position. *)
Definition accepted (t : turn) : bool :=
  match turn_sample t with Some _ => true | None => false end.

(** Every broadcast of the schedule could be written to [ws]. *)
Definition survives (sched : list turn) (ws : WebSocket) : bool :=
  forallb (fun t => if accepted t then turn_send_ok t ws else true) sched.

(** The input of the loop that a turn stands for. *)
Definition turn_input (t : turn) : incoming :=
  Text (turn_data t) (turn_now t) (turn_send_ok t).

(** A malformed position in the words of the specification, for which
    the inbound unit is [{lat: number, lon: number}]: the text does not
    parse, or [lat] or [lon] is missing or is not a JSON number. *)
Definition spec_numeric (v : json float) : bool :=
  match v with
  | JInt _ => true
  | JFloat _ => true
  | _ => false
  end.

Definition spec_malformed (data : string) : bool :=
  match json_loads data with
  | None => true
  | Some (JObject items) =>
      negb (spec_numeric (dict_get "lat" items))
      || negb (spec_numeric (dict_get "lon" items))
  | Some _ => true
  end.

(** ** Broadcasts that overlap

    Every [await admin_ws.send_text(...)] lets the other connections
    run, so the sends of one broadcast may be interleaved with the turns
    and the sends of other users.  The machine below follows the handlers
    await by await: next to the process state it keeps, per user, what is
    left of the broadcast its connection is in the middle of (the rest of
    the copy of the observer list, and the message). *)

(** Lines 160-169: the part of a turn between the parse and the loop over
    the observers; nothing is awaited in it. *)
Definition ingest (username : string) (lat lon : float) (now : Z) : M unit :=
  modify (fun w =>
    set_manager (record_sample username (mkSample lat lon now) (manager w)) w) ;;;
  db_add_location username lat lon now.

(** Lines 172-178: the body of the loop over the observers. *)
Definition send_one (send_ok : WebSocket -> bool) (admin_ws : WebSocket)
    (payload : json float) : M unit :=
  try_except (send_text send_ok admin_ws payload)
    [(is_Exception,
      try_except (admin_remove admin_ws) [(fun _ => true, ret tt)])].

Inductive event :=
| Recv (username data : string) (now : Z)
| Send (username : string) (send_ok : WebSocket -> bool).

Definition in_broadcast (username : string)
    (pend : gmap string (list WebSocket * json float)) : bool :=
  match pend !! username with
  | Some (_ :: _, _) => true
  | _ => false
  end.

(** [Recv]: the connection of [username], waiting in [receive_text], gets
    a text and runs up to its first [send_text] (or to its end).  [Send]:
    the send it is waiting on completes or fails, and it runs up to the
    next one.  An event for a connection that is not at that point
    changes nothing. *)
Definition step (e : event)
    (st : World * gmap string (list WebSocket * json float))
    : World * gmap string (list WebSocket * json float) :=
  match e with
  | Recv username data now =>
      if in_broadcast username (snd st) then st
      else
        match parse_position data with
        | inl _ => (fst (manager_disconnect username (fst st)), snd st)
        | inr pos =>
            let w1 := fst (ingest username (fst pos) (snd pos) now (fst st)) in
            (w1,
             <[username := (admin_connections w1,
                            update_payload username (fst pos) (snd pos) now)]>
               (snd st))
        end
  | Send username send_ok =>
      match snd st !! username with
      | Some (admin_ws :: rest, payload) =>
          (fst (send_one send_ok admin_ws payload (fst st)),
           <[username := (rest, payload)]> (snd st))
      | _ => st
      end
  end.

Fixpoint steps (trace : list event)
    (st : World * gmap string (list WebSocket * json float))
    : World * gmap string (list WebSocket * json float) :=
  match trace with
  | [] => st
  | e :: rest => steps rest (step e st)
  end.

(** The update [msg] is about [username]. *)
Definition sender_is (username : string) (msg : json float) : bool :=
  match msg with
  | JObject items =>
      match dict_get "username" items with
      | JString s => String.eqb s username
      | _ => false
      end
  | _ => false
  end.

(** The updates about [username] that [ws] was sent, in order. *)
Definition received_from (username : string) (ws : WebSocket) (w : World)
    : list (json float) :=
  List.filter (sender_is username) (received ws w).






(** * Properties *)

(** ** The monad *)

Lemma bind_inr {A B} (m : M A) (k : A -> M B) w w' a :
  m w = (w', inr a) -> bind m k w = k a w'.
Proof. intros H. unfold bind. now rewrite H. Qed.

Lemma bind_inl {A B} (m : M A) (k : A -> M B) w w' e :
  m w = (w', inl e) -> bind m k w = (w', inl e).
Proof. intros H. unfold bind. now rewrite H. Qed.

Lemma world_eta w :
  mkWorld (manager w) (admin_connections w) (users w) (locations w) (wire w) = w.
Proof. now destruct w. Qed.

(** ** Broadcast *)

Lemma list_remove_filtered (send_ok : WebSocket -> bool) x done rest :
  send_ok x = false ->
  list_remove x (List.filter send_ok done ++ x :: rest)
  = Some (List.filter send_ok done ++ rest).
Proof.
  intros Hx. induction done as [|y done IH]; simpl.
  - now rewrite Nat.eqb_refl.
  - destruct (send_ok y) eqn:Hy; simpl; [|exact IH].
    destruct (Nat.eqb y x) eqn:Hyx.
    + apply Nat.eqb_eq in Hyx. congruence.
    + now rewrite IH.
Qed.

Lemma broadcast_loop_spec send_ok payload rest :
  forall done w,
    admin_connections w = List.filter send_ok done ++ rest ->
    broadcast_loop send_ok rest payload w
    = (mkWorld (manager w) (List.filter send_ok (done ++ rest)) (users w)
               (locations w) (wire w ++ map (attempt send_ok payload) rest),
       inr tt).
Proof.
  induction rest as [|a rest IH]; intros done w Hw.
  - simpl. unfold ret. rewrite !app_nil_r in *. rewrite <- Hw.
    now rewrite world_eta.
  - cbn [broadcast_loop map]. unfold attempt at 1.
    destruct (send_ok a) eqn:Ha.
    + erewrite bind_inr; cycle 1.
      { unfold try_except, send_text. rewrite Ha. reflexivity. }
      rewrite (IH (done ++ [a])).
      * cbn. rewrite <- !app_assoc. reflexivity.
      * cbn. rewrite Hw, List.filter_app. cbn. rewrite Ha.
        now rewrite <- app_assoc.
    + erewrite bind_inr; cycle 1.
      { unfold try_except, send_text, bind, modify, raise. rewrite Ha. cbn.
        unfold admin_remove. cbn. rewrite Hw.
        rewrite (list_remove_filtered send_ok a done rest Ha). reflexivity. }
      rewrite (IH (done ++ [a])).
      * cbn. rewrite <- !app_assoc. reflexivity.
      * cbn. rewrite List.filter_app. cbn. rewrite Ha. now rewrite app_nil_r.
Qed.

Lemma broadcast_spec send_ok payload w :
  broadcast send_ok payload w
  = (mkWorld (manager w) (List.filter send_ok (admin_connections w)) (users w)
             (locations w)
             (wire w ++ map (attempt send_ok payload) (admin_connections w)),
     inr tt).
Proof.
  unfold broadcast, bind, get.
  now rewrite (broadcast_loop_spec send_ok payload (admin_connections w) [] w).
Qed.

(** ** One turn of the ingestion loop *)

Lemma user_message_ok username data now send_ok w la lo :
  parse_position data = inr (la, lo) ->
  user_message username data now send_ok w
  = (mkWorld (record_sample username (mkSample la lo now) (manager w))
             (List.filter send_ok (admin_connections w)) (users w)
             (locations w ++
              [mkLocation (Z.of_nat (S (length (locations w)))) username la lo now])
             (wire w ++
              map (attempt send_ok (update_payload username la lo now))
                  (admin_connections w)),
     inr tt).
Proof.
  intros Hp. unfold user_message.
  erewrite bind_inr; [|unfold lift_result; now rewrite Hp].
  unfold bind, modify, db_add_location. cbn -[broadcast].
  now rewrite broadcast_spec.
Qed.

Lemma user_message_err username data now send_ok w e :
  parse_position data = inl e ->
  user_message username data now send_ok w = (w, inl e).
Proof.
  intros Hp. unfold user_message.
  erewrite bind_inl; [reflexivity|unfold lift_result; now rewrite Hp].
Qed.

(** C2 (as amended): for a position [{lat, lon}] received on the
    connection of [username], every admin of the observer list is sent,
    once and in list order, the message [{"type": "update", "username":
    username, "lat": lat, "lon": lon, "ts": now}] (the sender is under the
    key ["username"]), and the table [locations] gains exactly one row
    [(username, lat, lon, now)]. *)
Theorem update_broadcast_and_append username data now send_ok w la lo :
  parse_position data = inr (la, lo) ->
  let msg := JObject [("type", JString "update"); ("username", JString username);
                      ("lat", JFloat la); ("lon", JFloat lo); ("ts", JInt now)] in
  let w' := fst (user_message username data now send_ok w) in
  wire w' = wire w ++ map (attempt send_ok msg) (admin_connections w)
  /\ locations w'
     = locations w ++
       [mkLocation (Z.of_nat (S (length (locations w)))) username la lo now]
  /\ snd (user_message username data now send_ok w) = inr tt.
Proof.
  intros Hp. cbn zeta. rewrite (user_message_ok _ _ _ _ _ _ _ Hp). cbn.
  repeat split; reflexivity.
Qed.

(** C3: one broadcast attempts a send to every member of the observer list
    whatever happens to the others, leaves in the list exactly the members
    whose send succeeded, touches nothing else, and returns normally; the
    outcome of the sender's turn depends on its own message only. *)
Theorem broadcast_isolates_failures send_ok payload w username data now :
  wire (fst (broadcast send_ok payload w))
  = wire w ++ map (attempt send_ok payload) (admin_connections w)
  /\ admin_connections (fst (broadcast send_ok payload w))
     = List.filter send_ok (admin_connections w)
  /\ manager (fst (broadcast send_ok payload w)) = manager w
  /\ users (fst (broadcast send_ok payload w)) = users w
  /\ locations (fst (broadcast send_ok payload w)) = locations w
  /\ snd (broadcast send_ok payload w) = inr tt
  /\ snd (user_message username data now send_ok w)
     = match parse_position data with
       | inl e => inl e
       | inr _ => inr tt
       end.
Proof.
  rewrite broadcast_spec. cbn [fst snd wire admin_connections manager users locations].
  repeat (split; [reflexivity|]).
  destruct (parse_position data) as [e|[la lo]] eqn:Hp.
  - now rewrite (user_message_err _ _ _ _ _ _ Hp).
  - now rewrite (user_message_ok _ _ _ _ _ _ _ Hp).
Qed.

(** C10: a message whose [lat] and [lon] are strings that [float()]
    converts is accepted: the turn returns normally; [latest] of the user
    becomes the sample with the converted values and the server time; the
    sample is appended to the user's buffer (the head dropped once there
    are more than 200) and is its newest element; one row with the same
    values is stored; the update with the same values is broadcast. *)
Theorem numeric_strings_accepted username data now send_ok w items slat slon la lo :
  json_loads data = Some (JObject items) ->
  dict_get "lat" items = JString slat ->
  dict_get "lon" items = JString slon ->
  float_of_str slat = Some la ->
  float_of_str slon = Some lo ->
  let w' := fst (user_message username data now send_ok w) in
  snd (user_message username data now send_ok w) = inr tt
  /\ manager w' = record_sample username (mkSample la lo now) (manager w)
  /\ locations w'
     = locations w ++
       [mkLocation (Z.of_nat (S (length (locations w)))) username la lo now]
  /\ wire w'
     = wire w ++
       map (attempt send_ok (update_payload username la lo now))
           (admin_connections w)
  /\ latest (manager w') !! username = Some (mkSample la lo now)
  /\ history_of username w'
     = (if decide (200 < length (history_of username w ++ [mkSample la lo now]))
        then drop 1 (history_of username w ++ [mkSample la lo now])
        else history_of username w ++ [mkSample la lo now])
  /\ last (history_of username w') = Some (mkSample la lo now)
  /\ active_connections (manager w') = active_connections (manager w).
Proof.
  intros Hj Hlat Hlon Hla Hlo.
  assert (Hp : parse_position data = inr (la, lo)).
  { unfold parse_position. rewrite Hj. cbn. rewrite Hlat, Hlon. cbn.
    rewrite Hla, Hlo. reflexivity. }
  cbn zeta. rewrite (user_message_ok _ _ _ _ _ _ _ Hp).
  unfold history_of. cbn [fst snd manager locations wire].
  do 4 (split; [reflexivity|]).
  cbn [record_sample latest history active_connections].
  rewrite !lookup_insert_eq. cbn [default].
  split; [reflexivity|]. split; [reflexivity|]. split; [|reflexivity].
  unfold history_cap.
  destruct (decide (200 < length (default [] (history (manager w) !! username)
                                   ++ [mkSample la lo now]))) as [Hgt|_];
    [|apply last_snoc].
  rewrite length_app in Hgt. cbn in Hgt.
  rewrite drop_app_le by lia. apply last_snoc.
Qed.

(** ** Schedules of turns: the registry *)

Lemma run_turns_app l1 l2 w :
  run_turns (l1 ++ l2) w = run_turns l2 (run_turns l1 w).
Proof.
  revert w. induction l1 as [|t l1 IH]; intros w; [reflexivity|].
  cbn. apply IH.
Qed.

Lemma manager_disconnect_frame username w :
  latest (manager (fst (manager_disconnect username w))) = latest (manager w)
  /\ history (manager (fst (manager_disconnect username w))) = history (manager w).
Proof.
  unfold manager_disconnect, modify. cbn.
  destruct (active_connections (manager w) !! username); now cbn.
Qed.

Lemma run_turn_manager t w :
  latest (manager (fst (run_turn t w)))
  = match turn_sample t with
    | Some s => <[turn_user t := s]> (latest (manager w))
    | None => latest (manager w)
    end
  /\ history (manager (fst (run_turn t w)))
     = match turn_sample t with
       | Some s => history (record_sample (turn_user t) s (manager w))
       | None => history (manager w)
       end.
Proof.
  unfold run_turn, try_except, turn_sample.
  destruct (parse_position (turn_data t)) as [e|[la lo]] eqn:Hp.
  - rewrite (user_message_err _ _ _ _ _ _ Hp). cbn.
    destruct (is_WebSocketDisconnect e); apply manager_disconnect_frame.
  - rewrite (user_message_ok _ _ _ _ _ _ _ Hp). now cbn.
Qed.

Lemma samples_of_snoc username l t :
  samples_of username (l ++ [t])
  = samples_of username l ++
    match (if decide (turn_user t = username) then turn_sample t else None) with
    | Some s => [s]
    | None => []
    end.
Proof.
  unfold samples_of. rewrite omap_app. cbn.
  now destruct (if decide (turn_user t = username) then turn_sample t else None).
Qed.

Lemma cap_step {A} (L : list A) (x : A) :
  (let old := drop (length L - history_cap) L in
   if decide (history_cap < length (old ++ [x])) then drop 1 (old ++ [x])
   else old ++ [x])
  = drop (length (L ++ [x]) - history_cap) (L ++ [x]).
Proof.
  cbn zeta. unfold history_cap.
  rewrite !length_app, length_drop. cbn [length].
  destruct (decide (200 < length L - (length L - 200) + 1)) as [Hgt|Hle].
  - rewrite <- drop_app_le by lia. rewrite drop_drop. f_equal. lia.
  - replace (length L - 200) with 0 by lia.
    replace (length L + 1 - 200) with 0 by lia. reflexivity.
Qed.

Lemma history_of_run_turns username sched w :
  length (history_of username w) <= history_cap ->
  history_of username (run_turns sched w)
  = drop (length (history_of username w ++ samples_of username sched) - history_cap)
         (history_of username w ++ samples_of username sched).
Proof.
  intros Hlen. induction sched as [|t l IH] using rev_ind.
  - cbn. rewrite app_nil_r. now replace (_ - _) with 0 by lia.
  - rewrite run_turns_app. cbn [run_turns]. rewrite samples_of_snoc.
    unfold history_of in *.
    destruct (run_turn_manager t (run_turns l w)) as [_ ->].
    destruct (decide (turn_user t = username)) as [->|Hne].
    + destruct (turn_sample t) as [s|]; [|now rewrite app_nil_r].
      cbn [record_sample history]. rewrite lookup_insert_eq. cbn [default].
      rewrite IH, app_assoc. apply cap_step.
    + rewrite app_nil_r.
      destruct (turn_sample t) as [s|]; [|exact IH].
      cbn [record_sample history]. now rewrite lookup_insert_ne.
Qed.

(** C1: starting without a buffer for [username], after any schedule in
    which [K] valid samples of [username] are ingested (turns of other
    users in between or not), the buffer of [username] holds the last
    [min K 200] of them in arrival order. *)
Theorem history_buffer_last_200 username sched w :
  history (manager w) !! username = None ->
  history_of username (run_turns sched w)
  = drop (length (samples_of username sched) - 200) (samples_of username sched)
  /\ length (history_of username (run_turns sched w))
     = Nat.min (length (samples_of username sched)) 200.
Proof.
  intros Hnone.
  assert (Hh : history_of username w = []) by (unfold history_of; now rewrite Hnone).
  assert (Heq := history_of_run_turns username sched w).
  rewrite Hh in Heq. cbn [app length] in Heq.
  rewrite Heq by (unfold history_cap; lia).
  unfold history_cap. split; [reflexivity|]. rewrite length_drop. lia.
Qed.

(** C4: after any schedule of turns of any users, the entry of [username]
    in [latest] is the last sample recorded for [username] (and the entry
    it had before, when none was). *)
Theorem latest_is_last_recorded username sched w :
  latest (manager (run_turns sched w)) !! username
  = match last (samples_of username sched) with
    | Some s => Some s
    | None => latest (manager w) !! username
    end.
Proof.
  induction sched as [|t l IH] using rev_ind; [reflexivity|].
  rewrite run_turns_app. cbn [run_turns]. rewrite samples_of_snoc.
  destruct (run_turn_manager t (run_turns l w)) as [-> _].
  destruct (decide (turn_user t = username)) as [->|Hne].
  - destruct (turn_sample t) as [s|].
    + now rewrite lookup_insert_eq, last_snoc.
    + now rewrite app_nil_r.
  - rewrite app_nil_r.
    destruct (turn_sample t) as [s|]; [|exact IH].
    now rewrite lookup_insert_ne.
Qed.

(** ** The tracked-user handler *)

Lemma user_loop_app username pre l w :
  user_loop username (pre ++ l) w
  = match user_loop username pre w with
    | (w', inr _) => user_loop username l w'
    | (w', inl e) => (w', inl e)
    end.
Proof.
  revert w. induction pre as [|i pre IH]; intros w; [reflexivity|].
  destruct i as [data now send_ok|]; [|reflexivity].
  cbn [app user_loop]. unfold bind.
  destruct (user_message username data now send_ok w) as [w1 [e|[]]];
    [reflexivity|apply IH].
Qed.

Lemma manager_disconnect_spec username w :
  manager_disconnect username w
  = (mkWorld (mkManager (delete username (active_connections (manager w)))
                        (latest (manager w)) (history (manager w)))
             (admin_connections w) (users w) (locations w) (wire w),
     inr tt).
Proof.
  unfold manager_disconnect, modify, set_manager.
  destruct (active_connections (manager w) !! username) eqn:Hl; [reflexivity|].
  rewrite (delete_id _ _ Hl). destruct w as [[a l h] ? ? ? ?]. reflexivity.
Qed.

Lemma websocket_user_run websocket token username inputs w :
  verify_token token = inr username ->
  websocket_user websocket token inputs w
  = match user_loop username inputs (connected username websocket w) with
    | (w1, inr st) => (w1, inr st)
    | (w1, inl e) => (fst (manager_disconnect username w1), inr Closed)
    end.
Proof.
  intros Hv. unfold websocket_user, authenticate.
  erewrite bind_inr; cycle 1.
  { unfold try_except, bind, lift_result. rewrite Hv. reflexivity. }
  cbn beta iota.
  erewrite bind_inr; [|reflexivity].
  unfold try_except.
  change (set_manager _ _) with (connected username websocket w).
  destruct (user_loop username inputs (connected username websocket w))
    as [w1 [e|st]]; [|reflexivity].
  cbn [select_handler]. unfold bind.
  destruct (is_WebSocketDisconnect e); cbn [is_Exception];
    now rewrite manager_disconnect_spec.
Qed.

Lemma user_loop_status username inputs w w' st :
  user_loop username inputs w = (w', inr st) -> st = Waiting.
Proof.
  revert w. induction inputs as [|i inputs IH]; intros w.
  - cbn. unfold ret. congruence.
  - destruct i as [data now send_ok|]; [|discriminate].
    cbn [user_loop]. unfold bind.
    destruct (user_message username data now send_ok w) as [w1 [e|[]]];
      [discriminate|apply IH].
Qed.

Lemma not_numeric_py_float v :
  not_numeric v = true -> exists e, py_float v = inl e.
Proof.
  destruct v; cbn; try discriminate; eauto.
  destruct (float_of_str s); [discriminate|eauto].
Qed.

Lemma malformed_parse data :
  malformed data = true -> exists e, parse_position data = inl e.
Proof.
  unfold malformed, parse_position.
  destruct (json_loads data) as [obj|]; [|cbn; eauto].
  destruct obj; cbn; eauto.
  intros H. apply orb_true_iff in H as [H|H];
    apply not_numeric_py_float in H as [e He].
  - rewrite He. eauto.
  - destruct (py_float (dict_get "lat" items)); [eauto|].
    rewrite He. eauto.
Qed.

(** C6 (as amended): in the streaming loop, a text that does not parse,
    is not an object, or whose [lat] or [lon] is missing or is a value
    that [float()] refuses ([None], a list, a dictionary, a string that
    does not spell a number) ends the connection: whatever came before ([pre]) and whatever would follow
    ([rest]), the handler returns, the entry of [username] in
    [active_connections] is gone, and [latest], [history], the store, the
    observer list and the wire are as they were before that text. *)
Theorem malformed_message_is_fatal websocket token username pre data now
    send_ok rest w :
  verify_token token = inr username ->
  malformed data = true ->
  let before := fst (websocket_user websocket token pre w) in
  let after :=
    websocket_user websocket token (pre ++ Text data now send_ok :: rest) w in
  snd after = inr Closed
  /\ active_connections (manager (fst after)) !! username = None
  /\ latest (manager (fst after)) = latest (manager before)
  /\ history (manager (fst after)) = history (manager before)
  /\ locations (fst after) = locations before
  /\ admin_connections (fst after) = admin_connections before
  /\ wire (fst after) = wire before.
Proof.
  intros Hv Hm. cbn zeta.
  destruct (malformed_parse data Hm) as [e He].
  rewrite !(websocket_user_run _ _ _ _ _ Hv), user_loop_app.
  destruct (user_loop username pre (connected username websocket w))
    as [w1 [e1|st]].
  - rewrite manager_disconnect_spec. cbn.
    rewrite lookup_delete_eq. repeat split; reflexivity.
  - cbn [user_loop]. erewrite bind_inl; [|apply user_message_err, He].
    rewrite manager_disconnect_spec. cbn.
    rewrite lookup_delete_eq. repeat split; reflexivity.
Qed.

(** C7: when the peer of [username] disconnects, only the entry of
    [username] in [active_connections] goes away ([latest], [history], the
    store and the observer list stay); a later connection of the same
    user puts its own channel under [username]; and a connection made
    while an entry exists overwrites it without any error. *)
Theorem reconnect_replaces_session ws1 ws2 token username pre w :
  verify_token token = inr username ->
  let wp := fst (websocket_user ws1 token pre w) in
  let wd := fst (websocket_user ws1 token (pre ++ [Disconnect]) w) in
  let wr := fst (websocket_user ws2 token [] wd) in
  active_connections (manager wd)
  = delete username (active_connections (manager wp))
  /\ latest (manager wd) = latest (manager wp)
  /\ history (manager wd) = history (manager wp)
  /\ locations wd = locations wp
  /\ admin_connections wd = admin_connections wp
  /\ active_connections (manager wr)
     = <[username := ws2]> (active_connections (manager wp))
  /\ latest (manager wr) = latest (manager wp)
  /\ history (manager wr) = history (manager wp)
  /\ websocket_user ws2 token [] wp = (connected username ws2 wp, inr Waiting)
  /\ active_connections (manager (connected username ws2 wp)) !! username
     = Some ws2.
Proof.
  intros Hv. cbn zeta.
  rewrite !(websocket_user_run _ _ _ _ _ Hv), user_loop_app.
  cbn [user_loop]. unfold ret, raise.
  destruct (user_loop username pre (connected username ws1 w))
    as [w1 [e1|st]];
    rewrite !manager_disconnect_spec; cbn;
    rewrite ?delete_delete_eq, ?insert_delete_eq, ?lookup_insert_eq;
    repeat split; reflexivity.
Qed.

(** ** Rejections at the entry points *)

Lemma authenticate_fail websocket token code detail w :
  verify_token token = inl (HTTPException code detail) ->
  authenticate websocket token w
  = (log_event (EvClose websocket 1008) w, inr None).
Proof.
  intros Hv. unfold authenticate, try_except, bind, lift_result.
  rewrite Hv. reflexivity.
Qed.

Lemma authenticate_ok websocket token username w :
  verify_token token = inr username ->
  authenticate websocket token w = (w, inr (Some username)).
Proof.
  intros Hv. unfold authenticate, try_except, bind, lift_result.
  rewrite Hv. reflexivity.
Qed.

(** C5: a token that verifies to a user who has no row in [users], or
    whose row has [is_admin = 0], gets the admin connection closed with
    code 1008 (policy violation); the observer list, the registry and the
    store are unchanged. *)
Theorem admin_entry_rejects_non_admin websocket token username send_ok inputs w :
  verify_token token = inr username ->
  (db_first_user username w = None
   \/ exists row, db_first_user username w = Some row
                  /\ user_is_admin row = 0%Z) ->
  websocket_admin websocket token send_ok inputs w
  = (log_event (EvClose websocket 1008) w, inr Closed)
  /\ admin_connections (fst (websocket_admin websocket token send_ok inputs w))
     = admin_connections w
  /\ manager (fst (websocket_admin websocket token send_ok inputs w)) = manager w
  /\ locations (fst (websocket_admin websocket token send_ok inputs w))
     = locations w.
Proof.
  intros Hv Hrole.
  assert (Heq : websocket_admin websocket token send_ok inputs w
                = (log_event (EvClose websocket 1008) w, inr Closed)).
  { unfold websocket_admin.
    erewrite bind_inr; [|apply authenticate_ok, Hv]. cbn beta iota.
    unfold bind at 1. unfold get.
    destruct Hrole as [-> | (row & -> & ->)]; reflexivity. }
  rewrite Heq. repeat split; reflexivity.
Qed.

(** C9: a token that decodes but carries no [sub] is refused by
    [verify_token] with status 401; both websocket handlers close the
    connection with code 1008 and the query fails with 401, the registry,
    the observer list and the store being left as they were. *)
Theorem token_without_sub_rejected token payload websocket inputs send_ok
    admin_inputs username w :
  jwt_decode token = Some payload ->
  claim_sub payload = None ->
  verify_token token = inl (HTTPException 401 "Invalid token")
  /\ websocket_user websocket token inputs w
     = (log_event (EvClose websocket 1008) w, inr Closed)
  /\ websocket_admin websocket token send_ok admin_inputs w
     = (log_event (EvClose websocket 1008) w, inr Closed)
  /\ get_history username token w = inl (HTTPException 401 "Invalid token")
  /\ manager (log_event (EvClose websocket 1008) w) = manager w
  /\ admin_connections (log_event (EvClose websocket 1008) w)
     = admin_connections w
  /\ locations (log_event (EvClose websocket 1008) w) = locations w.
Proof.
  intros Hd Hs.
  assert (Hv : verify_token token = inl (HTTPException 401 "Invalid token")).
  { unfold verify_token. now rewrite Hd, Hs. }
  split; [exact Hv|]. split; [|split; [|split]].
  - unfold websocket_user.
    erewrite bind_inr; [|eapply authenticate_fail, Hv]. reflexivity.
  - unfold websocket_admin.
    erewrite bind_inr; [|eapply authenticate_fail, Hv]. reflexivity.
  - unfold get_history. now rewrite Hv.
  - repeat split; reflexivity.
Qed.

(** ** The history query *)

Lemma insert_desc_perm r l : insert_desc r l ≡ₚ r :: l.
Proof.
  induction l as [|x l IH]; cbn; [reflexivity|].
  destruct (Z.leb (loc_timestamp x) (loc_timestamp r)); [reflexivity|].
  rewrite IH. apply perm_swap.
Qed.

Lemma order_by_perm l : order_by_timestamp_desc l ≡ₚ l.
Proof.
  induction l as [|x l IH]; cbn; [reflexivity|].
  fold (order_by_timestamp_desc l). now rewrite insert_desc_perm, IH.
Qed.

Lemma insert_desc_sorted r l :
  StronglySorted newer_or_equal l ->
  StronglySorted newer_or_equal (insert_desc r l).
Proof.
  induction l as [|x l IH]; intros Hs; cbn.
  - repeat constructor.
  - apply StronglySorted_cons in Hs as [Hx Hl].
    destruct (Z.leb_spec (loc_timestamp x) (loc_timestamp r)) as [Hle|Hlt].
    + constructor; [constructor; assumption|].
      constructor; [exact Hle|].
      eapply Forall_impl; [exact Hx|].
      unfold newer_or_equal. intros y Hy. lia.
    + constructor; [apply IH, Hl|].
      rewrite insert_desc_perm. constructor; [|exact Hx].
      unfold newer_or_equal. lia.
Qed.

Lemma order_by_sorted l :
  StronglySorted newer_or_equal (order_by_timestamp_desc l).
Proof.
  induction l as [|x l IH]; cbn; [constructor|].
  apply insert_desc_sorted, IH.
Qed.

(** C8: with a token that verifies (to any user, admin or not), the query
    answers with at most 200 rows of [username] as [{lat, lon, ts}], by
    timestamp newest first; the rows left out are no newer than any row
    returned; the table [users] is not consulted.  Verification is
    required: with any token that does not verify the answer is the 401
    and no row. *)
Theorem get_history_recent_newest_first username token caller w :
  verify_token token = inr caller ->
  get_history username token w
  = inr (map row_sample (query_locations username w))
  /\ length (query_locations username w)
     = Nat.min 200 (length (stored_for username w))
  /\ (exists omitted,
       query_locations username w ++ omitted ≡ₚ stored_for username w
       /\ StronglySorted newer_or_equal (query_locations username w ++ omitted))
  /\ (forall us, get_history username token (set_users us w)
                 = get_history username token w)
  /\ (forall other,
        get_history username other w
        = match verify_token other with
          | inl _ => inl (HTTPException 401 "Invalid token")
          | inr _ => inr (map row_sample (query_locations username w))
          end).
Proof.
  intros Hv.
  assert (Hany : forall other,
             get_history username other w
             = match verify_token other with
               | inl _ => inl (HTTPException 401 "Invalid token")
               | inr _ => inr (map row_sample (query_locations username w))
               end).
  { intros other. unfold get_history, verify_token.
    destruct (jwt_decode other) as [c|]; [|reflexivity].
    destruct (claim_sub c); reflexivity. }
  rewrite (Hany token), Hv.
  split; [reflexivity|]. split; [|split; [|split; [|exact Hany]]].
  - unfold query_locations. fold (stored_for username w).
    now rewrite length_take, order_by_perm.
  - exists (drop 200 (order_by_timestamp_desc (stored_for username w))).
    unfold query_locations. fold (stored_for username w).
    rewrite take_drop. split; [apply order_by_perm|apply order_by_sorted].
  - intros us. unfold get_history. rewrite Hv. reflexivity.
Qed.

(** ** The admin handler beyond the role check *)

Lemma admin_loop_texts texts w :
  admin_loop (map AdminText texts) w = (w, inr Waiting).
Proof. induction texts as [|x texts IH]; [reflexivity|exact IH]. Qed.

Lemma admin_loop_disconnect texts rest w :
  admin_loop (map AdminText texts ++ AdminDisconnect :: rest) w
  = (w, inl WebSocketDisconnect).
Proof. induction texts as [|x texts IH]; [reflexivity|exact IH]. Qed.

Lemma list_remove_last x l :
  x ∉ l -> list_remove x (l ++ [x]) = Some l.
Proof.
  induction l as [|y l IH]; intros Hx; cbn.
  - now rewrite Nat.eqb_refl.
  - apply not_elem_of_cons in Hx as [Hne Hx].
    destruct (Nat.eqb y x) eqn:Hyx.
    + apply Nat.eqb_eq in Hyx. congruence.
    + now rewrite (IH Hx).
Qed.

Lemma websocket_admin_granted websocket token username row send_ok inputs w :
  verify_token token = inr username ->
  db_first_user username w = Some row ->
  user_is_admin row <> 0%Z ->
  websocket_admin websocket token send_ok inputs w
  = bind (send_text send_ok websocket (initial_payload (manager w)))
      (fun _ =>
         try_except (admin_loop inputs)
           [(is_WebSocketDisconnect,
             bind (try_except (admin_remove websocket) [(fun _ => true, ret tt)])
                  (fun _ => ret Closed))])
      (mkWorld (manager w) (admin_connections w ++ [websocket]) (users w)
               (locations w) (wire w ++ [EvAccept websocket])).
Proof.
  intros Hv Hrow Hadm. unfold websocket_admin.
  erewrite bind_inr; [|apply authenticate_ok, Hv]. cbn beta iota.
  unfold bind at 1. unfold get at 1. rewrite Hrow.
  apply Z.eqb_neq in Hadm. rewrite Hadm. reflexivity.
Qed.

(** X1: an admin whose peer can be written to is accepted, put at the end of
    the observer list and sent the snapshot of the registry as it is at
    that moment; the texts it sends afterwards change nothing. *)
Theorem admin_admitted websocket token username row send_ok texts w :
  verify_token token = inr username ->
  db_first_user username w = Some row ->
  user_is_admin row <> 0%Z ->
  send_ok websocket = true ->
  websocket_admin websocket token send_ok (map AdminText texts) w
  = (mkWorld (manager w) (admin_connections w ++ [websocket]) (users w)
             (locations w)
             (wire w ++ [EvAccept websocket;
                         EvSend websocket (initial_payload (manager w))]),
     inr Waiting).
Proof.
  intros Hv Hrow Hadm Hok.
  rewrite (websocket_admin_granted _ _ _ _ _ _ _ Hv Hrow Hadm).
  unfold bind, send_text, try_except. rewrite Hok. cbn.
  rewrite admin_loop_texts. unfold log_event. cbn.
  now rewrite <- app_assoc.
Qed.

(** X2: when an admitted admin disconnects, its handler takes it out of the
    observer list again: for a connection that was not in the list, the
    list is back to what it was, and the registry and the store are
    untouched. *)
Theorem admin_disconnect_restores_list websocket token username row send_ok
    texts rest w :
  verify_token token = inr username ->
  db_first_user username w = Some row ->
  user_is_admin row <> 0%Z ->
  send_ok websocket = true ->
  websocket ∉ admin_connections w ->
  websocket_admin websocket token send_ok
    (map AdminText texts ++ AdminDisconnect :: rest) w
  = (mkWorld (manager w) (admin_connections w) (users w) (locations w)
             (wire w ++ [EvAccept websocket;
                         EvSend websocket (initial_payload (manager w))]),
     inr Closed).
Proof.
  intros Hv Hrow Hadm Hok Hfresh.
  rewrite (websocket_admin_granted _ _ _ _ _ _ _ Hv Hrow Hadm).
  unfold bind, send_text, try_except. rewrite Hok. cbn.
  rewrite admin_loop_disconnect. cbn.
  unfold admin_remove. cbn. rewrite (list_remove_last _ _ Hfresh). cbn.
  unfold ret, set_admin_connections, log_event. cbn.
  now rewrite <- app_assoc.
Qed.

(** X3: when the snapshot cannot be sent, the exception leaves the handler
    (nothing catches it) and the connection stays in the observer list;
    the next broadcast that fails on it is what removes it. *)
Theorem admin_snapshot_failure_leaves_observer websocket token username row
    send_ok inputs payload w :
  verify_token token = inr username ->
  db_first_user username w = Some row ->
  user_is_admin row <> 0%Z ->
  send_ok websocket = false ->
  let r := websocket_admin websocket token send_ok inputs w in
  snd r = inl SendError
  /\ admin_connections (fst r) = admin_connections w ++ [websocket]
  /\ wire (fst r)
     = wire w ++ [EvAccept websocket;
                  EvSendFailed websocket (initial_payload (manager w))]
  /\ admin_connections (fst (broadcast send_ok payload (fst r)))
     = List.filter send_ok (admin_connections w).
Proof.
  intros Hv Hrow Hadm Hok. cbn zeta.
  rewrite (websocket_admin_granted _ _ _ _ _ _ _ Hv Hrow Hadm).
  unfold bind at 1. unfold send_text. rewrite Hok.
  unfold bind, modify, raise. cbn -[broadcast].
  rewrite broadcast_spec. cbn.
  rewrite <- app_assoc, List.filter_app. cbn. rewrite Hok, app_nil_r.
  repeat split; reflexivity.
Qed.

(** ** The snapshot *)

Lemma dict_get_map_in {V} (f : V -> json float) (l : list (string * V)) u v :
  NoDup (l.*1) -> (u, v) ∈ l ->
  dict_get u (map (fun kv => (fst kv, f (snd kv))) l) = f v.
Proof.
  induction l as [|[k x] l IH]; intros Hnd Hin; [now apply elem_of_nil in Hin|].
  cbn in *. apply NoDup_cons in Hnd as [Hk Hnd].
  apply elem_of_cons in Hin as [Heq|Hin].
  - injection Heq as -> ->. now rewrite String.eqb_refl.
  - destruct (String.eqb k u) eqn:Hku; [|now apply IH].
    apply String.eqb_eq in Hku as ->. exfalso. apply Hk.
    apply list_elem_of_fmap. now exists (u, v).
Qed.

Lemma dict_get_map_notin {V} (f : V -> json float) (l : list (string * V)) u :
  u ∉ l.*1 -> dict_get u (map (fun kv => (fst kv, f (snd kv))) l) = JNull.
Proof.
  induction l as [|[k x] l IH]; intros Hu; [reflexivity|].
  cbn in *. apply not_elem_of_cons in Hu as [Hne Hu].
  destruct (String.eqb k u) eqn:Hku; [|now apply IH].
  apply String.eqb_eq in Hku. congruence.
Qed.

Lemma dict_get_map_to_list {V} (f : V -> json float) (m : gmap string V) u :
  dict_get u (map (fun kv => (fst kv, f (snd kv))) (map_to_list m))
  = match m !! u with Some v => f v | None => JNull end.
Proof.
  destruct (m !! u) as [v|] eqn:Hu.
  - apply dict_get_map_in; [apply NoDup_fst_map_to_list|].
    now apply elem_of_map_to_list.
  - apply dict_get_map_notin. intros Hin.
    apply list_elem_of_fmap in Hin as ([k v] & -> & Hin).
    apply elem_of_map_to_list in Hin. cbn in Hu. congruence.
Qed.

(** X4: the snapshot sent to a new admin has, under ["latest"], exactly one
    entry per user of [latest] with that user's sample, and under
    ["history"] exactly one entry per user of [history] with that user's
    samples in buffer order; users that disconnected are still there. *)
Theorem snapshot_reflects_registry (m : ConnectionManager) :
  exists L H,
    initial_payload m
    = JObject [("type", JString "initial"); ("latest", JObject L);
               ("history", JObject H)]
    /\ (forall u, dict_get u L
                  = match latest m !! u with
                    | Some s => sample_json s
                    | None => JNull
                    end)
    /\ (forall u, dict_get u H
                  = match history m !! u with
                    | Some l => JArray (map sample_json l)
                    | None => JNull
                    end)
    /\ length L = size (latest m)
    /\ length H = size (history m).
Proof.
  eexists _, _. split; [reflexivity|].
  split; [intros u; apply (dict_get_map_to_list sample_json)|].
  split; [intros u;
          apply (dict_get_map_to_list (fun l => JArray (map sample_json l)))|].
  rewrite !length_map, !length_map_to_list. split; reflexivity.
Qed.

(** ** Tokens at the entry points *)

Lemma verify_token_error token e :
  verify_token token = inl e -> e = HTTPException 401 "Invalid token".
Proof.
  unfold verify_token. destruct (jwt_decode token) as [c|]; [|congruence].
  destruct (claim_sub c); congruence.
Qed.

(** X5: whatever makes [verify_token] fail (a token that does not decode, is
    expired or forged, or has no subject), the failure is the 401 "Invalid
    token"; both websocket handlers then only close the connection with
    code 1008, and the query answers with the 401. *)
Theorem invalid_token_rejected token e websocket inputs send_ok admin_inputs
    username w :
  verify_token token = inl e ->
  e = HTTPException 401 "Invalid token"
  /\ websocket_user websocket token inputs w
     = (log_event (EvClose websocket 1008) w, inr Closed)
  /\ websocket_admin websocket token send_ok admin_inputs w
     = (log_event (EvClose websocket 1008) w, inr Closed)
  /\ get_history username token w = inl (HTTPException 401 "Invalid token").
Proof.
  intros Hv. pose proof (verify_token_error _ _ Hv) as ->.
  split; [reflexivity|]. split; [|split].
  - unfold websocket_user.
    erewrite bind_inr; [|eapply authenticate_fail, Hv]. reflexivity.
  - unfold websocket_admin.
    erewrite bind_inr; [|eapply authenticate_fail, Hv]. reflexivity.
  - unfold get_history. now rewrite Hv.
Qed.

(** X6: of the claims of a token only [sub] is read: two tokens with the same
    subject are treated alike by the three entry points, whatever their
    [is_admin] and [exp] claims say. *)
Theorem only_subject_is_read t1 t2 c1 c2 websocket inputs send_ok admin_inputs
    username w :
  jwt_decode t1 = Some c1 ->
  jwt_decode t2 = Some c2 ->
  claim_sub c1 = claim_sub c2 ->
  websocket_user websocket t1 inputs w = websocket_user websocket t2 inputs w
  /\ websocket_admin websocket t1 send_ok admin_inputs w
     = websocket_admin websocket t2 send_ok admin_inputs w
  /\ get_history username t1 w = get_history username t2 w.
Proof.
  intros H1 H2 Hs.
  assert (Hv : verify_token t1 = verify_token t2).
  { unfold verify_token. now rewrite H1, H2, Hs. }
  unfold websocket_user, websocket_admin, get_history, authenticate.
  rewrite Hv. repeat split; reflexivity.
Qed.

(** ** Turns: what they touch *)

Lemma run_turn_spec t w :
  run_turn t w
  = match turn_sample t with
    | Some s =>
        (mkWorld (record_sample (turn_user t) s (manager w))
                 (List.filter (turn_send_ok t) (admin_connections w)) (users w)
                 (locations w ++
                  [mkLocation (Z.of_nat (S (length (locations w)))) (turn_user t)
                              (lat s) (lon s) (ts s)])
                 (wire w ++
                  map (attempt (turn_send_ok t)
                         (update_payload (turn_user t) (lat s) (lon s) (ts s)))
                      (admin_connections w)),
         inr tt)
    | None =>
        (mkWorld (mkManager (delete (turn_user t) (active_connections (manager w)))
                            (latest (manager w)) (history (manager w)))
                 (admin_connections w) (users w) (locations w) (wire w),
         inr tt)
    end.
Proof.
  unfold run_turn, try_except, turn_sample.
  destruct (parse_position (turn_data t)) as [e|[la lo]] eqn:Hp.
  - rewrite (user_message_err _ _ _ _ _ _ Hp). cbn [select_handler].
    destruct (is_WebSocketDisconnect e); cbn [is_Exception];
      apply manager_disconnect_spec.
  - now rewrite (user_message_ok _ _ _ _ _ _ _ Hp).
Qed.

(** X7: a turn of one user leaves every other user's live entry, latest
    sample and buffer as they are, and never touches the table [users]. *)
Theorem turn_leaves_other_users t w v :
  turn_user t <> v ->
  active_connections (manager (fst (run_turn t w))) !! v
  = active_connections (manager w) !! v
  /\ latest (manager (fst (run_turn t w))) !! v = latest (manager w) !! v
  /\ history (manager (fst (run_turn t w))) !! v = history (manager w) !! v
  /\ users (fst (run_turn t w)) = users w.
Proof.
  intros Hne. rewrite run_turn_spec.
  destruct (turn_sample t) as [s|]; cbn.
  - rewrite !lookup_insert_ne by exact Hne. repeat split; reflexivity.
  - rewrite lookup_delete_ne by exact Hne. repeat split; reflexivity.
Qed.

(** X8: from any buffer of at most 200 samples, after a schedule the buffer
    of a user is the last 200 of the old buffer followed by the user's new
    samples; it never holds more than 200. *)
Theorem history_buffer_bounded username sched w :
  length (history_of username w) <= 200 ->
  history_of username (run_turns sched w)
  = drop (length (history_of username w ++ samples_of username sched) - 200)
         (history_of username w ++ samples_of username sched)
  /\ length (history_of username (run_turns sched w)) <= 200.
Proof.
  intros Hlen.
  pose proof (history_of_run_turns username sched w Hlen) as Heq.
  unfold history_cap in Heq. rewrite Heq. split; [reflexivity|].
  rewrite length_drop. lia.
Qed.

Lemma last_cap_step (old : list Sample) s :
  last (if decide (history_cap < length (old ++ [s])) then drop 1 (old ++ [s])
        else old ++ [s])
  = Some s.
Proof.
  destruct (decide (history_cap < length (old ++ [s]))) as [Hgt|_];
    [|apply last_snoc].
  rewrite length_app in Hgt. cbn in Hgt. unfold history_cap in Hgt.
  rewrite drop_app_le by lia. apply last_snoc.
Qed.

Lemma run_turn_latest_last username t w :
  last (history_of username w) = latest (manager w) !! username ->
  last (history_of username (fst (run_turn t w)))
  = latest (manager (fst (run_turn t w))) !! username.
Proof.
  intros Hinv. unfold history_of in *. rewrite run_turn_spec.
  destruct (turn_sample t) as [s|]; cbn; [|exact Hinv].
  destruct (decide (turn_user t = username)) as [->|Hne].
  - rewrite !lookup_insert_eq. cbn. apply last_cap_step.
  - now rewrite !lookup_insert_ne.
Qed.

(** X9: the latest sample of a user and the newest element of its buffer
    agree: if they do before a schedule, they do after it. *)
Theorem latest_is_newest_of_history username sched w :
  last (history_of username w) = latest (manager w) !! username ->
  last (history_of username (run_turns sched w))
  = latest (manager (run_turns sched w)) !! username.
Proof.
  revert w. induction sched as [|t sched IH]; intros w Hinv; [exact Hinv|].
  cbn [run_turns]. apply IH, run_turn_latest_last, Hinv.
Qed.

(** ** Turns: the store *)

Lemma stored_for_snoc username w r :
  List.filter (fun x => String.eqb (loc_username x) username) (locations w ++ [r])
  = stored_for username w ++
    (if String.eqb (loc_username r) username then [r] else []).
Proof. unfold stored_for. rewrite List.filter_app. reflexivity. Qed.

Lemma omap_step {A B} (f : A -> option B) x l :
  omap f (x :: l)
  = match f x with Some y => y :: omap f l | None => omap f l end.
Proof. reflexivity. Qed.

Lemma stored_samples_run_turns username sched w :
  map row_sample (stored_for username (run_turns sched w))
  = map row_sample (stored_for username w) ++ samples_of username sched.
Proof.
  revert w. induction sched as [|t sched IH]; intros w.
  - cbn. now rewrite app_nil_r.
  - cbn [run_turns]. rewrite IH, run_turn_spec. unfold samples_of.
    rewrite omap_step. fold (samples_of username sched).
    destruct (turn_sample t) as [[la lo n]|] eqn:Hs; cbn [fst].
    + unfold stored_for at 1. cbn [locations]. rewrite stored_for_snoc.
      cbn [loc_username]. rewrite map_app, <- app_assoc. f_equal.
      destruct (decide (turn_user t = username)) as [Heq|Hne].
      * rewrite Heq, String.eqb_refl. reflexivity.
      * apply String.eqb_neq in Hne. rewrite Hne. reflexivity.
    + destruct (decide (turn_user t = username)); reflexivity.
Qed.

(** X10: the store only grows, by one row per accepted position, in the order
    the turns ran; so the rows of one user are its accepted samples in the
    order they arrived. *)
Theorem store_gains_accepted_samples_in_order username sched w :
  map row_fields (locations (run_turns sched w))
  = map row_fields (locations w) ++ omap turn_fields sched
  /\ map row_sample (stored_for username (run_turns sched w))
     = map row_sample (stored_for username w) ++ samples_of username sched.
Proof.
  split; [|apply stored_samples_run_turns].
  revert w. induction sched as [|t sched IH]; intros w.
  - cbn. now rewrite app_nil_r.
  - cbn [run_turns]. rewrite IH, run_turn_spec, omap_step.
    unfold turn_fields at 2.
    destruct (turn_sample t) as [[la lo n]|] eqn:Hs; cbn [fst locations];
      [|reflexivity].
    rewrite map_app, <- app_assoc. reflexivity.
Qed.

Lemma last_200_of_last_200 {A} (S0 ss : list A) :
  drop (length (drop (length S0 - 200) S0 ++ ss) - 200)
       (drop (length S0 - 200) S0 ++ ss)
  = drop (length (S0 ++ ss) - 200) (S0 ++ ss).
Proof.
  rewrite <- (drop_app_le S0 ss) by lia.
  rewrite drop_drop. f_equal. rewrite length_drop, !length_app. lia.
Qed.

(** X11: the buffer of a user is the tail of what the store holds for it: if
    the buffer is the last 200 stored samples of the user before a
    schedule, it is so after it. *)
Theorem buffer_is_tail_of_store username sched w :
  history_of username w
  = drop (length (stored_for username w) - 200)
         (map row_sample (stored_for username w)) ->
  history_of username (run_turns sched w)
  = drop (length (stored_for username (run_turns sched w)) - 200)
         (map row_sample (stored_for username (run_turns sched w))).
Proof.
  intros Hinv.
  assert (Hlen : length (history_of username w) <= history_cap).
  { rewrite Hinv, length_drop, length_map. unfold history_cap. lia. }
  rewrite (history_of_run_turns username sched w Hlen). unfold history_cap.
  rewrite <- (length_map row_sample (stored_for username (run_turns sched w))).
  rewrite stored_samples_run_turns, Hinv.
  rewrite <- (length_map row_sample (stored_for username w)).
  apply last_200_of_last_200.
Qed.

(** ** Turns: the observers *)

Lemma filter_twice {A} (f g : A -> bool) l :
  List.filter g (List.filter f l) = List.filter (fun a => f a && g a) l.
Proof.
  induction l as [|a l IH]; [reflexivity|]. cbn.
  destruct (f a); cbn; [destruct (g a)|]; now rewrite IH.
Qed.

Lemma filter_all {A} (l : list A) : List.filter (fun _ => true) l = l.
Proof. induction l as [|a l IH]; [reflexivity|]. cbn. now rewrite IH. Qed.

(** X12: a schedule of user turns never adds an observer: it leaves in the
    list, in their order, exactly the admins for which every broadcast of
    the schedule succeeded. *)
Theorem observers_after_schedule sched w :
  admin_connections (run_turns sched w)
  = List.filter (survives sched) (admin_connections w).
Proof.
  revert w. induction sched as [|t sched IH]; intros w.
  - cbn. now rewrite filter_all.
  - cbn [run_turns]. rewrite IH, run_turn_spec. unfold survives at 2, accepted.
    cbn [forallb]. fold (survives sched).
    destruct (turn_sample t) as [s|]; cbn [fst admin_connections].
    + apply filter_twice.
    + reflexivity.
Qed.



(** ** The handler and its turns *)

Lemma websocket_user_is_session websocket token username inputs w :
  verify_token token = inr username ->
  websocket_user websocket token inputs w
  = user_session username inputs (connected username websocket w).
Proof.
  intros Hv. rewrite (websocket_user_run _ _ _ _ _ Hv).
  unfold user_session, try_except.
  destruct (user_loop username inputs (connected username websocket w))
    as [w1 [e|st]]; [|reflexivity].
  cbn [select_handler]. unfold bind.
  destruct (is_WebSocketDisconnect e); cbn [is_Exception];
    now rewrite manager_disconnect_spec.
Qed.

Lemma user_session_run username inputs w :
  user_session username inputs w
  = match user_loop username inputs w with
    | (w1, inr st) => (w1, inr st)
    | (w1, inl e) => (fst (manager_disconnect username w1), inr Closed)
    end.
Proof.
  unfold user_session, try_except.
  destruct (user_loop username inputs w) as [w1 [e|st]]; [|reflexivity].
  cbn [select_handler]. unfold bind.
  destruct (is_WebSocketDisconnect e); cbn [is_Exception];
    now rewrite manager_disconnect_spec.
Qed.

(** X14: the loop of a connection can be followed input by input: running a
    prefix up to the wait point and then the rest from the state reached
    is the same as running all of it, and once the handler has returned
    nothing more is read. *)
Theorem user_session_resumes username pre l w :
  user_session username (pre ++ l) w
  = match user_session username pre w with
    | (w', inr Waiting) => user_session username l w'
    | (w', r) => (w', r)
    end.
Proof.
  rewrite !user_session_run, user_loop_app.
  destruct (user_loop username pre w) as [w1 [e|st]] eqn:Hpre.
  - reflexivity.
  - rewrite (user_loop_status _ _ _ _ _ Hpre). now rewrite user_session_run.
Qed.

Lemma run_turn_accepted t w :
  accepted t = true ->
  user_message (turn_user t) (turn_data t) (turn_now t) (turn_send_ok t) w
  = run_turn t w.
Proof.
  unfold accepted, turn_sample, run_turn, try_except.
  destruct (parse_position (turn_data t)) as [e|[la lo]] eqn:Hp; [discriminate|].
  intros _. now rewrite (user_message_ok _ _ _ _ _ _ _ Hp).
Qed.

Lemma user_loop_turns username ts w :
  forallb (fun t => String.eqb (turn_user t) username && accepted t) ts = true ->
  user_loop username (map turn_input ts) w = (run_turns ts w, inr Waiting).
Proof.
  revert w. induction ts as [|t ts IH]; intros w Hall; [reflexivity|].
  cbn [forallb] in Hall. apply andb_true_iff in Hall as [Ht Hall].
  apply andb_true_iff in Ht as [Hu Hacc]. apply String.eqb_eq in Hu.
  cbn [map turn_input user_loop run_turns]. unfold turn_input at 1.
  unfold bind. rewrite <- Hu, (run_turn_accepted t w Hacc).
  destruct (run_turn t w) as [w1 [e|[]]] eqn:Hrun.
  - rewrite run_turn_spec in Hrun. destruct (turn_sample t); discriminate.
  - cbn [fst]. rewrite Hu. apply IH, Hall.
Qed.

(** X15: what a connection of [username] does with its texts is what the
    schedule of its turns does: as long as the texts are positions the
    handler keeps waiting for more, and at the first text that is not, it
    returns after that turn. *)
Theorem handler_runs_its_turns websocket token username ts tb rest w :
  verify_token token = inr username ->
  forallb (fun t => String.eqb (turn_user t) username && accepted t) ts = true ->
  turn_user tb = username ->
  accepted tb = false ->
  websocket_user websocket token (map turn_input ts) w
  = (run_turns ts (connected username websocket w), inr Waiting)
  /\ websocket_user websocket token (map turn_input ts ++ turn_input tb :: rest) w
     = (run_turns (ts ++ [tb]) (connected username websocket w), inr Closed).
Proof.
  intros Hv Hall Hu Hbad.
  rewrite !(websocket_user_run _ _ _ _ _ Hv), user_loop_app.
  rewrite (user_loop_turns _ _ _ Hall). split; [reflexivity|].
  rewrite run_turns_app. cbn [run_turns].
  set (w1 := run_turns ts (connected username websocket w)).
  unfold accepted, turn_sample in Hbad.
  destruct (parse_position (turn_data tb)) as [e|pos] eqn:Hp; [|discriminate].
  cbn [user_loop turn_input]. unfold turn_input.
  erewrite bind_inl; [|apply user_message_err, Hp].
  rewrite run_turn_spec. unfold turn_sample. rewrite Hp, Hu.
  now rewrite manager_disconnect_spec.
Qed.

(** ** Which texts end a connection *)

Lemma py_float_error v e :
  py_float v = inl e -> not_numeric v = true \/ e = OverflowError.
Proof.
  destruct v; cbn; intros H; try (left; reflexivity); try discriminate.
  - destruct (float_of_int _); cbn in H; [discriminate|]. right. congruence.
  - destruct (float_of_int z); cbn in H; [discriminate|]. right. congruence.
  - destruct (float_of_str s); cbn in H; [discriminate|]. now left.
Qed.

(** X16: a text is refused only when it is malformed (it does not parse, is
    not an object, or its [lat] or [lon] is missing or not numeric) or
    when an integer in it is too large for a float; booleans, integers
    and strings that spell a number are converted. *)
Theorem only_malformed_or_overflow_is_refused data e :
  parse_position data = inl e ->
  malformed data = true \/ e = OverflowError.
Proof.
  unfold parse_position, malformed.
  destruct (json_loads data) as [obj|]; [|now left].
  destruct obj; cbn; try (now left).
  destruct (py_float (dict_get "lat" items)) as [e1|la] eqn:Hla.
  - intros [= <-]. apply py_float_error in Hla as [->|Ho]; [now left|now right].
  - destruct (py_float (dict_get "lon" items)) as [e2|lo] eqn:Hlo; [|discriminate].
    intros [= <-]. apply py_float_error in Hlo as [->|Ho]; [|now right].
    left. apply orb_true_r.
Qed.

(** ** A connection that was replaced *)

(** X17: [w] is a state in which a connection of [username] waits in its loop.
    A second connection of the same user takes the entry; when the peer
    of the first one then goes away, its handler deletes the entry, which
    is the second connection's; the second connection goes on recording
    positions without being registered. *)
Theorem replaced_connection_unregisters_successor ws2 token username rest
    data now send_ok la lo w :
  verify_token token = inr username ->
  parse_position data = inr (la, lo) ->
  let w2 := fst (websocket_user ws2 token [] w) in
  let r := user_session username (Disconnect :: rest) w2 in
  let r' := user_session username [Text data now send_ok] (fst r) in
  active_connections (manager w2) !! username = Some ws2
  /\ snd r = inr Closed
  /\ active_connections (manager (fst r)) !! username = None
  /\ snd r' = inr Waiting
  /\ latest (manager (fst r')) !! username = Some (mkSample la lo now)
  /\ active_connections (manager (fst r')) !! username = None.
Proof.
  intros Hv Hp. cbn zeta.
  rewrite (websocket_user_is_session _ _ _ _ _ Hv).
  rewrite !user_session_run. cbn [user_loop]. unfold ret, raise. cbn [fst snd].
  rewrite manager_disconnect_spec. cbn [fst snd].
  unfold bind. rewrite (user_message_ok _ _ _ _ _ _ _ Hp). cbn.
  rewrite lookup_insert_eq, lookup_delete_eq, lookup_insert_eq.
  repeat split; reflexivity.
Qed.

(** ** Accounts *)

Lemma find_snoc {A} (f : A -> bool) l x :
  find f (l ++ [x])
  = match find f l with
    | Some y => Some y
    | None => if f x then Some x else None
    end.
Proof.
  induction l as [|a l IH]; [reflexivity|]. cbn.
  destruct (f a); [reflexivity|exact IH].
Qed.

Lemma find_user_none username us :
  find (fun u => String.eqb (user_username u) username) us = None ->
  username ∉ map user_username us.
Proof.
  induction us as [|a us IH]; cbn; intros Hf; [apply not_elem_of_nil|].
  destruct (String.eqb (user_username a) username) eqn:Ha; [discriminate|].
  apply String.eqb_neq in Ha. apply not_elem_of_cons. split; [congruence|].
  apply IH, Hf.
Qed.

Lemma register_spec username password salt w :
  register username password salt w
  = match db_first_user username w with
    | Some _ => (w, inr (mkRedirect "/register?error=exists" 302))
    | None =>
        (set_users
           (users w ++
            [mkUser (Z.of_nat (S (length (users w)))) username
                    (pwd_hash salt password) 0]) w,
         inr (mkRedirect "/login?registered=1" 302))
    end.
Proof.
  unfold register, bind, get. destruct (db_first_user username w); reflexivity.
Qed.

Lemma db_first_user_register username password salt w v :
  db_first_user v (fst (register username password salt w))
  = match db_first_user v w with
    | Some r => Some r
    | None =>
        if decide (v = username)
        then Some (mkUser (Z.of_nat (S (length (users w)))) username
                          (pwd_hash salt password) 0)
        else None
    end.
Proof.
  rewrite register_spec.
  destruct (db_first_user username w) as [r|] eqn:Hu; cbn [fst].
  - destruct (db_first_user v w) eqn:Hv; [reflexivity|].
    destruct (decide (v = username)) as [->|]; [congruence|reflexivity].
  - clear Hu. unfold db_first_user. cbn [users set_users]. rewrite find_snoc.
    destruct (find _ (users w)); [reflexivity|]. cbn [user_username].
    destruct (decide (v = username)) as [->|Hne].
    + now rewrite String.eqb_refl.
    + destruct (String.eqb username v) eqn:Hb; [|reflexivity].
      apply String.eqb_eq in Hb. congruence.
Qed.

(** X18: registration never alters an account that exists (the name of the
    request included: a taken name is refused with the [error=exists]
    redirect and nothing is written), and a free name gets one new row
    that is not an admin; the registry, the observer list and the stored
    positions are not touched. *)
Theorem register_adds_only_a_plain_account username password salt w v :
  db_first_user v (fst (register username password salt w))
  = match db_first_user v w with
    | Some r => Some r
    | None =>
        if decide (v = username)
        then Some (mkUser (Z.of_nat (S (length (users w)))) username
                          (pwd_hash salt password) 0)
        else None
    end
  /\ snd (register username password salt w)
     = inr (match db_first_user username w with
            | Some _ => mkRedirect "/register?error=exists" 302
            | None => mkRedirect "/login?registered=1" 302
            end)
  /\ manager (fst (register username password salt w)) = manager w
  /\ admin_connections (fst (register username password salt w))
     = admin_connections w
  /\ locations (fst (register username password salt w)) = locations w.
Proof.
  split; [apply db_first_user_register|].
  rewrite register_spec.
  destruct (db_first_user username w); repeat split; reflexivity.
Qed.

Lemma db_first_user_registrations reqs w v r :
  db_first_user v w = Some r ->
  db_first_user v (run_registrations reqs w) = Some r.
Proof.
  revert w. induction reqs as [|[[u p] salt] reqs IH]; intros w Hv; [exact Hv|].
  cbn [run_registrations]. apply IH.
  now rewrite db_first_user_register, Hv.
Qed.

(** X19: no sequence of registrations produces an admin or replaces an
    account: the accounts that existed are found unchanged, and every
    admin account found afterwards was there before. *)
Theorem registrations_never_grant_admin reqs w v r :
  db_first_user v (run_registrations reqs w) = Some r ->
  user_is_admin r <> 0%Z ->
  db_first_user v w = Some r.
Proof.
  revert w. induction reqs as [|[[u p] salt] reqs IH]; intros w Hv Hadm;
    [exact Hv|].
  cbn [run_registrations] in Hv. specialize (IH _ Hv Hadm).
  rewrite db_first_user_register in IH.
  destruct (db_first_user v w) as [r0|]; [exact IH|].
  destruct (decide (v = u)); [|discriminate].
  injection IH as <-. now cbn in Hadm.
Qed.

Lemma usernames_register username password salt w :
  NoDup (usernames w) ->
  NoDup (usernames (fst (register username password salt w))).
Proof.
  intros Hnd. rewrite register_spec.
  destruct (db_first_user username w) eqn:Hu; [exact Hnd|].
  unfold usernames. cbn. rewrite map_app. cbn.
  apply NoDup_app. split; [exact Hnd|]. split; [|apply NoDup_singleton].
  intros x Hx Hx'. apply list_elem_of_singleton in Hx' as ->.
  now apply (find_user_none _ _ Hu).
Qed.

(** X20: user names stay unique: if no two rows of [users] share a name, this
    is so after [create_admin] and after any sequence of registrations. *)
Theorem usernames_stay_unique salt reqs w :
  NoDup (usernames w) ->
  NoDup (usernames (run_registrations reqs (fst (create_admin salt w)))).
Proof.
  intros Hnd.
  assert (Hadm : NoDup (usernames (fst (create_admin salt w)))).
  { unfold create_admin, bind, get.
    destruct (db_first_user "admin1" w) eqn:Hu; [exact Hnd|].
    unfold usernames. cbn. rewrite map_app. cbn.
    apply NoDup_app. split; [exact Hnd|]. split; [|apply NoDup_singleton].
    intros x Hx Hx'. apply list_elem_of_singleton in Hx' as ->.
    now apply (find_user_none _ _ Hu). }
  revert Hadm. generalize (fst (create_admin salt w)). clear.
  induction reqs as [|[[u p] s] reqs IH]; intros w Hnd; [exact Hnd|].
  cbn [run_registrations]. apply IH, usernames_register, Hnd.
Qed.

(** X21: [create_admin] leaves an existing row named ["admin1"] alone, whatever
    its flag, and otherwise adds the admin with the built-in password;
    running it again changes nothing. *)
Theorem create_admin_once salt salt' w :
  db_first_user "admin1" (fst (create_admin salt w))
  = match db_first_user "admin1" w with
    | Some r => Some r
    | None => Some (mkUser (Z.of_nat (S (length (users w)))) "admin1"
                           (pwd_hash salt "admin123") 1)
    end
  /\ create_admin salt' (fst (create_admin salt w))
     = (fst (create_admin salt w), inr tt).
Proof.
  assert (H1 : db_first_user "admin1" (fst (create_admin salt w))
               = match db_first_user "admin1" w with
                 | Some r => Some r
                 | None => Some (mkUser (Z.of_nat (S (length (users w))))
                                        "admin1" (pwd_hash salt "admin123") 1)
                 end).
  { unfold create_admin, bind, get.
    destruct (db_first_user "admin1" w) as [r|] eqn:Hu; cbn [fst]; [exact Hu|].
    unfold db_first_user in *. cbn [users db_add_user modify fst set_users].
    rewrite find_snoc, Hu. reflexivity. }
  split; [exact H1|].
  unfold create_admin at 1. unfold bind at 1. unfold get at 1.
  rewrite H1. destruct (db_first_user "admin1" w); reflexivity.
Qed.

(** ** Logging in *)

(** X22: an unknown user name and a wrong password get the same answer, the
    400 "Incorrect username or password", and nothing is changed. *)
Theorem login_failure_is_uniform username password now w :
  (db_first_user username w = None
   \/ exists row, db_first_user username w = Some row
                  /\ pwd_verify password (user_hashed_password row) = false) ->
  login_for_access_token username password now w
  = (w, inl (HTTPException 400 "Incorrect username or password")).
Proof.
  intros [Hu | (row & Hu & Hp)];
    unfold login_for_access_token, bind, get; rewrite Hu; [reflexivity|].
  now rewrite Hp.
Qed.

Lemma login_spec username password now w row :
  db_first_user username w = Some row ->
  pwd_verify password (user_hashed_password row) = true ->
  login_for_access_token username password now w
  = (w, inr (mkTokenResponse
               (jwt_encode (mkClaims (Some username) (Some (user_is_admin row))
                                     (Some (now + 86400)%Z)))
               "bearer")).
Proof.
  intros Hu Hp. unfold login_for_access_token, bind, get. rewrite Hu, Hp.
  reflexivity.
Qed.

(** X23: with the right password the answer is a bearer token for the claims
    [sub = username], [is_admin] as in the user's row and [exp] one day
    after the request; when that token decodes to the claims it was made
    from, [verify_token] yields the user name again.  Logging in changes
    nothing. *)
Theorem login_token_verifies username password now w row :
  db_first_user username w = Some row ->
  pwd_verify password (user_hashed_password row) = true ->
  let claims := mkClaims (Some username) (Some (user_is_admin row))
                         (Some (now + 86400)%Z) in
  jwt_decode (jwt_encode claims) = Some claims ->
  login_for_access_token username password now w
  = (w, inr (mkTokenResponse (jwt_encode claims) "bearer"))
  /\ verify_token (jwt_encode claims) = inr username.
Proof.
  intros Hu Hp claims Hrt. split; [now apply login_spec|].
  unfold verify_token. now rewrite Hrt.
Qed.

Lemma websocket_admin_refused websocket token username row send_ok inputs w :
  verify_token token = inr username ->
  db_first_user username w = Some row ->
  user_is_admin row = 0%Z ->
  websocket_admin websocket token send_ok inputs w
  = (log_event (EvClose websocket 1008) w, inr Closed).
Proof.
  intros Hv Hrow Hadm. unfold websocket_admin.
  erewrite bind_inr; [|apply authenticate_ok, Hv]. cbn beta iota.
  unfold bind at 1. unfold get. now rewrite Hrow, Hadm.
Qed.

(** X24: from registration to the websocket: a user that registers under a
    free name and logs in with the same password gets a token that the
    tracked-user entry point accepts under that name and that the admin
    entry point refuses with code 1008. *)
Theorem registered_user_streams_but_is_no_admin username password salt now
    websocket send_ok admin_inputs w :
  db_first_user username w = None ->
  pwd_verify password (pwd_hash salt password) = true ->
  let claims := mkClaims (Some username) (Some 0%Z) (Some (now + 86400)%Z) in
  jwt_decode (jwt_encode claims) = Some claims ->
  let w1 := fst (register username password salt w) in
  login_for_access_token username password now w1
  = (w1, inr (mkTokenResponse (jwt_encode claims) "bearer"))
  /\ websocket_user websocket (jwt_encode claims) [] w1
     = (connected username websocket w1, inr Waiting)
  /\ websocket_admin websocket (jwt_encode claims) send_ok admin_inputs w1
     = (log_event (EvClose websocket 1008) w1, inr Closed).
Proof.
  intros Hfree Hp claims Hrt w1.
  assert (Hrow : db_first_user username w1
                 = Some (mkUser (Z.of_nat (S (length (users w)))) username
                                (pwd_hash salt password) 0)).
  { unfold w1. rewrite db_first_user_register, Hfree.
    now destruct (decide (username = username)). }
  assert (Hv : verify_token (jwt_encode claims) = inr username).
  { unfold verify_token. now rewrite Hrt. }
  split; [exact (login_spec _ _ now _ _ Hrow Hp)|].
  split.
  - now rewrite (websocket_user_run _ _ _ _ _ Hv).
  - exact (websocket_admin_refused _ _ _ _ _ _ _ Hv Hrow eq_refl).
Qed.

(** ** Broadcasts that overlap *)

Lemma user_message_stages username data now send_ok w :
  user_message username data now send_ok w
  = bind (lift_result (parse_position data))
      (fun pos =>
         bind (ingest username (fst pos) (snd pos) now)
              (fun _ => broadcast send_ok
                          (update_payload username (fst pos) (snd pos) now)))
      w.
Proof.
  unfold user_message, ingest, bind, lift_result.
  destruct (parse_position data); reflexivity.
Qed.

Lemma broadcast_loop_send_one send_ok a rest payload w :
  broadcast_loop send_ok (a :: rest) payload w
  = bind (send_one send_ok a payload)
         (fun _ => broadcast_loop send_ok rest payload) w.
Proof. reflexivity. Qed.

Lemma send_one_spec send_ok a payload w :
  send_one send_ok a payload w
  = (mkWorld (manager w)
             (if send_ok a then admin_connections w
              else default (admin_connections w)
                           (list_remove a (admin_connections w)))
             (users w) (locations w)
             (wire w ++ [attempt send_ok payload a]),
     inr tt).
Proof.
  unfold send_one, try_except, send_text, attempt.
  destruct (send_ok a); [reflexivity|].
  unfold bind, modify, raise, admin_remove. cbn.
  destruct (list_remove a (admin_connections w)); reflexivity.
Qed.

Lemma steps_app t1 t2 st : steps (t1 ++ t2) st = steps t2 (steps t1 st).
Proof. revert st. induction t1 as [|e t1 IH]; intros st; [reflexivity|apply IH]. Qed.

Lemma steps_sends username send_ok payload l :
  forall w pend,
    steps (repeat (Send username send_ok) (length l))
          (w, <[username := (l, payload)]> pend)
    = (fst (broadcast_loop send_ok l payload w),
       <[username := ([], payload)]> pend).
Proof.
  induction l as [|a l IH]; intros w pend; [reflexivity|].
  cbn [length repeat steps step snd fst]. rewrite lookup_insert_eq.
  rewrite insert_insert_eq, IH, broadcast_loop_send_one.
  unfold bind. now rewrite send_one_spec.
Qed.

(** X25: a turn is one run of the machine: the text received, then the
    sends of its broadcast one after the other with nothing in between,
    reach the state that the turn reaches. *)
Theorem turn_is_an_uninterrupted_run t w pend :
  in_broadcast (turn_user t) pend = false ->
  accepted t = true ->
  fst (steps (Recv (turn_user t) (turn_data t) (turn_now t)
              :: repeat (Send (turn_user t) (turn_send_ok t))
                        (length (admin_connections w)))
             (w, pend))
  = fst (run_turn t w).
Proof.
  intros Hfree Hacc. cbn [steps step snd fst]. rewrite Hfree.
  rewrite <- (run_turn_accepted t w Hacc), user_message_stages.
  unfold accepted, turn_sample in Hacc. unfold bind at 1, lift_result.
  destruct (parse_position (turn_data t)) as [e|pos]; [discriminate|].
  change (length (admin_connections w))
    with (length (admin_connections
                    (fst (ingest (turn_user t) (fst pos) (snd pos) (turn_now t) w)))).
  rewrite steps_sends. reflexivity.
Qed.










End Engine.

Arguments mkSample {float} lat lon ts.
Arguments mkLocation {float} loc_id loc_username loc_lat loc_lon loc_timestamp.
Arguments manager {float} w.
Arguments admin_connections {float} w.
Arguments locations {float} w.
Arguments wire {float} w.
Arguments active_connections {float} c.
Arguments latest {float} c.
Arguments history {float} c.
Arguments EvAccept {float} ws.
Arguments EvClose {float} ws code.
Arguments EvSend {float} ws msg.
Arguments EvSendFailed {float} ws msg.

(** * The handlers run on explicit inputs *)

Section Examples.

Import TestEnv.

Local Abbreviation world0 := (initial_world float users0 []).
Local Abbreviation world1 := (set_admin_connections float [7; 8; 9] world0).
Local Abbreviation position_text := "{'lat': 37.1, 'lon': -122.2}".
Local Abbreviation strings_text := "{'lat': '37.1', 'lon': '-122.2'}".
Local Abbreviation lat1 := (371 # 10)%Q.
Local Abbreviation lon1 := (-1222 # 10)%Q.
Local Abbreviation run_user :=
  (websocket_user float float_of_int float_of_str json_loads jwt_decode).
Local Abbreviation run_admin := (websocket_admin float jwt_decode).
Local Abbreviation run_message :=
  (user_message float float_of_int float_of_str json_loads).
Local Abbreviation run_schedule :=
  (run_turns float float_of_int float_of_str json_loads).
Local Abbreviation schedule3 :=
  [mkTurn "u1" position_text 100 all_ok;
   mkTurn "u2" "{'lat': 1, 'lon': 2}" 101 all_but_8;
   mkTurn "u1" strings_text 102 all_ok].
Local Abbreviation update1 :=
  (JObject [("type", JString "update"); ("username", JString "u1");
            ("lat", JFloat lat1); ("lon", JFloat lon1);
            ("ts", JInt 1700000000)]).

Lemma history_buffer_last_200_witness :
  history (manager world1) !! "u1" = None
  /\ history_of float "u1" (run_schedule schedule3 world1)
     = [mkSample lat1 lon1 100; mkSample lat1 lon1 102]
  /\ length (history_of float "u1" (run_schedule schedule3 world1)) = 2.
Proof.
  split; [reflexivity|].
  apply (history_buffer_last_200 float float_of_int float_of_str json_loads
           "u1" schedule3 world1).
  reflexivity.
Defined.

(** With 201 samples the first one is gone and 200 remain. *)
Example history_evicts_oldest :
  let sched := map (fun n => mkTurn "u1" position_text (Z.of_nat n) all_ok)
                   (seq 0 201) in
  length (history_of float "u1" (run_schedule sched world0)) = 200
  /\ head (history_of float "u1" (run_schedule sched world0))
     = Some (mkSample lat1 lon1 1)
  /\ last (history_of float "u1" (run_schedule sched world0))
     = Some (mkSample lat1 lon1 200).
Proof. vm_compute. repeat split; reflexivity. Qed.

Lemma update_broadcast_and_append_witness :
  parse_position float float_of_int float_of_str json_loads position_text
  = inr (lat1, lon1)
  /\ wire (fst (run_message "u1" position_text 1700000000 all_but_8 world1))
     = [EvSend 7 update1; EvSendFailed 8 update1; EvSend 9 update1]
  /\ locations (fst (run_message "u1" position_text 1700000000 all_but_8 world1))
     = [mkLocation 1 "u1" lat1 lon1 1700000000]
  /\ snd (run_message "u1" position_text 1700000000 all_but_8 world1) = inr tt.
Proof.
  split; [reflexivity|].
  apply (update_broadcast_and_append float float_of_int float_of_str json_loads
           "u1" position_text 1700000000 all_but_8 world1 lat1 lon1).
  reflexivity.
Defined.

(** C2 as stated fails: for the sample [{lat: 37.1, lon: -122.2}] of
    ["u1"], the one admin is sent a message that names the sender under
    ["username"]; the message [{type: "update", identity: "u1", ...}] is
    never sent. *)
Lemma update_message_has_no_identity_key :
  let w := set_admin_connections float [7] world0 in
  let w' := fst (run_user 1 "token-u1" [Text position_text 1700000000 all_ok] w) in
  wire w' = [EvAccept 1; EvSend 7 update1]
  /\ ~ In (EvSend 7 (spec_update_message float "u1" lat1 lon1 1700000000))
          (wire w').
Proof.
  cbn zeta. split; [reflexivity|].
  intros [H|[H|[]]]; discriminate H.
Qed.

Lemma admin_entry_rejects_non_admin_witness :
  verify_token jwt_decode "token-u1" = inr "u1"
  /\ (exists row, db_first_user float "u1" world1 = Some row
                  /\ user_is_admin row = 0%Z)
  /\ run_admin 5 "token-u1" all_ok [] world1
     = (log_event float (EvClose 5 1008) world1, inr Closed).
Proof.
  split; [reflexivity|].
  split; [eexists; split; reflexivity|].
  apply (admin_entry_rejects_non_admin float jwt_decode 5 "token-u1" "u1"
           all_ok [] world1); [reflexivity|].
  right. eexists. split; reflexivity.
Defined.

(** A token of a user that has no row in [users] is refused as well, and
    the admin of the table is let in. *)
Example admin_entry_examples :
  run_admin 5 "token-ghost" all_ok [] world1
  = (log_event float (EvClose 5 1008) world1, inr Closed)
  /\ admin_connections (fst (run_admin 5 "token-admin1" all_ok [] world1))
     = [7; 8; 9; 5].
Proof. split; reflexivity. Qed.

Lemma malformed_message_is_fatal_witness :
  verify_token jwt_decode "token-u1" = inr "u1"
  /\ malformed float float_of_str json_loads "{'lat': 37.1}" = true
  /\ snd (run_user 1 "token-u1"
            ([Text position_text 100 all_ok] ++
             Text "{'lat': 37.1}" 101 all_ok :: [Text position_text 102 all_ok])
            world1)
     = inr Closed
  /\ history_of float "u1"
       (fst (run_user 1 "token-u1"
               ([Text position_text 100 all_ok] ++
                Text "{'lat': 37.1}" 101 all_ok :: [Text position_text 102 all_ok])
               world1))
     = [mkSample lat1 lon1 100].
Proof.
  split; [reflexivity|]. split; [reflexivity|].
  pose proof (malformed_message_is_fatal float float_of_int float_of_str
                json_loads jwt_decode 1 "token-u1" "u1"
                [Text position_text 100 all_ok] "{'lat': 37.1}" 101 all_ok
                [Text position_text 102 all_ok] world1 eq_refl eq_refl)
    as (Hclosed & _ & _ & Hhist & _).
  split; [exact Hclosed|].
  unfold history_of. rewrite Hhist. reflexivity.
Defined.

(** Other texts that end the connection, and two that do not. *)
Example malformed_examples :
  malformed float float_of_str json_loads "not json" = true
  /\ malformed float float_of_str json_loads "[1, 2]" = true
  /\ malformed float float_of_str json_loads "{'lat': 'north', 'lon': 2}" = true
  /\ malformed float float_of_str json_loads position_text = false
  /\ malformed float float_of_str json_loads strings_text = false.
Proof. repeat split; reflexivity. Qed.

Lemma reconnect_replaces_session_witness :
  verify_token jwt_decode "token-u1" = inr "u1"
  /\ active_connections
       (manager (fst (run_user 1 "token-u1"
                        ([Text position_text 100 all_ok] ++ [Disconnect]) world1)))
     !! "u1" = None
  /\ active_connections
       (manager
          (fst (run_user 2 "token-u1" []
                  (fst (run_user 1 "token-u1"
                          ([Text position_text 100 all_ok] ++ [Disconnect])
                          world1)))))
     !! "u1" = Some 2
  /\ history_of float "u1"
       (fst (run_user 2 "token-u1" []
               (fst (run_user 1 "token-u1"
                       ([Text position_text 100 all_ok] ++ [Disconnect])
                       world1))))
     = [mkSample lat1 lon1 100].
Proof.
  split; [reflexivity|].
  pose proof (reconnect_replaces_session float float_of_int float_of_str
                json_loads jwt_decode 1 2 "token-u1" "u1"
                [Text position_text 100 all_ok] world1 eq_refl)
    as (Hd & _ & _ & _ & _ & Hr & _ & Hh & _).
  split; [rewrite Hd; reflexivity|].
  split; [rewrite Hr; reflexivity|].
  unfold history_of. rewrite Hh. reflexivity.
Defined.

Local Abbreviation world2 :=
  (initial_world float users0
     [mkLocation 1 "u1" lat1 lon1 100; mkLocation 2 "u2" lat1 lon1 101;
      mkLocation 3 "u1" lon1 lat1 105; mkLocation 4 "u1" lat1 lat1 103]).

Lemma get_history_recent_newest_first_witness :
  verify_token jwt_decode "token-u1" = inr "u1"
  /\ get_history float jwt_decode "u1" "token-u1" world2
     = inr [mkSample lon1 lat1 105; mkSample lat1 lat1 103;
            mkSample lat1 lon1 100]
  /\ length (query_locations float "u1" world2) = 3
  /\ get_history float jwt_decode "u1" "forged" world2
     = inl (HTTPException 401 "Invalid token").
Proof.
  split; [reflexivity|].
  pose proof (get_history_recent_newest_first float jwt_decode "u1" "token-u1"
                "u1" world2 eq_refl) as (Hrows & Hlen & _ & _ & Hany).
  split; [rewrite Hrows; reflexivity|].
  split; [rewrite Hlen; reflexivity|].
  etransitivity; [exact (Hany "forged")|reflexivity].
Defined.

(** A non-admin reads the rows of another user; without a valid token the
    query fails. *)
Example get_history_examples :
  get_history float jwt_decode "u2" "token-u1" world2
  = inr [mkSample lat1 lon1 101]
  /\ get_history float jwt_decode "u2" "forged" world2
     = inl (HTTPException 401 "Invalid token").
Proof. split; reflexivity. Qed.

Lemma token_without_sub_rejected_witness :
  jwt_decode "token-nosub" = Some (mkClaims None (Some 0%Z) (Some 86400%Z))
  /\ verify_token jwt_decode "token-nosub" = inl (HTTPException 401 "Invalid token")
  /\ run_user 1 "token-nosub" [Text position_text 100 all_ok] world1
     = (log_event float (EvClose 1 1008) world1, inr Closed)
  /\ run_admin 1 "token-nosub" all_ok [] world1
     = (log_event float (EvClose 1 1008) world1, inr Closed)
  /\ get_history float jwt_decode "u1" "token-nosub" world1
     = inl (HTTPException 401 "Invalid token").
Proof.
  split; [reflexivity|].
  pose proof (token_without_sub_rejected float float_of_int float_of_str
                json_loads jwt_decode "token-nosub"
                (mkClaims None (Some 0%Z) (Some 86400%Z)) 1
                [Text position_text 100 all_ok] all_ok [] "u1" world1
                eq_refl eq_refl) as (Hv & Hu & Ha & Hq & _).
  repeat split; assumption.
Defined.

Lemma numeric_strings_accepted_witness :
  json_loads strings_text
  = Some (JObject [("lat", JString "37.1"); ("lon", JString "-122.2")])
  /\ float_of_str "37.1" = Some lat1
  /\ float_of_str "-122.2" = Some lon1
  /\ snd (run_message "u1" strings_text 1700000000 all_ok world1) = inr tt
  /\ latest (manager (fst (run_message "u1" strings_text 1700000000 all_ok world1)))
     !! "u1" = Some (mkSample lat1 lon1 1700000000)
  /\ wire (fst (run_message "u1" strings_text 1700000000 all_ok world1))
     = [EvSend 7 update1; EvSend 8 update1; EvSend 9 update1]
  /\ history_of float "u1"
       (fst (run_message "u1" strings_text 1700000000 all_ok world1))
     = [mkSample lat1 lon1 1700000000]
  /\ locations (fst (run_message "u1" strings_text 1700000000 all_ok world1))
     = [mkLocation 1 "u1" lat1 lon1 1700000000].
Proof.
  split; [reflexivity|]. split; [reflexivity|]. split; [reflexivity|].
  pose proof (numeric_strings_accepted float float_of_int float_of_str
                json_loads "u1" strings_text 1700000000 all_ok world1
                [("lat", JString "37.1"); ("lon", JString "-122.2")]
                "37.1" "-122.2" lat1 lon1
                eq_refl eq_refl eq_refl eq_refl eq_refl)
    as (Hret & _ & Hloc & Hw & Hlatest & Hhist & _).
  split; [exact Hret|].
  split; [etransitivity; [exact Hlatest|reflexivity]|].
  split; [etransitivity; [exact Hw|reflexivity]|].
  split; [etransitivity; [exact Hhist|reflexivity]|].
  etransitivity; [exact Hloc|reflexivity].
Defined.

(** ** More runs *)

Local Abbreviation admin_row := (mkUser 1 "admin1" "$2b$admin123" 1).
Local Abbreviation update1_at n := (update_payload float "u1" lat1 lon1 n).
Local Abbreviation u1_row := (mkUser 2 "u1" "$2b$secret" 0).
Local Abbreviation world3 := (set_admin_connections float [7; 9] world0).
Local Abbreviation run_session :=
  (user_session float float_of_int float_of_str json_loads).
Local Abbreviation run_login := (login_for_access_token float jwt_encode pwd_verify).
Local Abbreviation run_register := (register float pwd_hash).

Lemma admin_admitted_witness :
  verify_token jwt_decode "token-admin1" = inr "admin1"
  /\ db_first_user float "admin1" world1 = Some admin_row
  /\ admin_connections
       (fst (run_admin 5 "token-admin1" all_ok (map AdminText ["ping"]) world1))
     = [7; 8; 9; 5]
  /\ snd (run_admin 5 "token-admin1" all_ok (map AdminText ["ping"]) world1)
     = inr Waiting.
Proof.
  split; [reflexivity|]. split; [reflexivity|].
  rewrite (admin_admitted float jwt_decode 5 "token-admin1" "admin1" admin_row
             all_ok ["ping"] world1 eq_refl eq_refl);
    [split; reflexivity|discriminate|reflexivity].
Defined.

Lemma admin_disconnect_restores_list_witness :
  verify_token jwt_decode "token-admin1" = inr "admin1"
  /\ admin_connections
       (fst (run_admin 5 "token-admin1" all_ok
               (map AdminText ["ping"] ++ AdminDisconnect :: [AdminText "late"])
               world1))
     = [7; 8; 9]
  /\ snd (run_admin 5 "token-admin1" all_ok
            (map AdminText ["ping"] ++ AdminDisconnect :: [AdminText "late"])
            world1)
     = inr Closed.
Proof.
  split; [reflexivity|].
  rewrite (admin_disconnect_restores_list float jwt_decode 5 "token-admin1"
             "admin1" admin_row all_ok ["ping"] [AdminText "late"] world1
             eq_refl eq_refl);
    [split; reflexivity|discriminate|reflexivity|].
  apply (bool_decide_unpack _). vm_compute. exact I.
Defined.

Lemma admin_snapshot_failure_leaves_observer_witness :
  all_but_8 8 = false
  /\ snd (run_admin 8 "token-admin1" all_but_8 [] world3) = inl SendError
  /\ admin_connections (fst (run_admin 8 "token-admin1" all_but_8 [] world3))
     = [7; 9; 8]
  /\ admin_connections
       (fst (broadcast float all_but_8 update1
               (fst (run_admin 8 "token-admin1" all_but_8 [] world3))))
     = [7; 9].
Proof.
  split; [reflexivity|].
  pose proof (admin_snapshot_failure_leaves_observer float jwt_decode 8
                "token-admin1" "admin1" admin_row all_but_8 [] update1 world3
                eq_refl eq_refl) as H.
  destruct H as (Hr & Hl & _ & Hb); [discriminate|reflexivity|].
  split; [exact Hr|]. split; [rewrite Hl|rewrite Hb]; reflexivity.
Defined.

Lemma invalid_token_rejected_witness :
  verify_token jwt_decode "forged" = inl (HTTPException 401 "Invalid token")
  /\ run_user 1 "forged" [Text position_text 100 all_ok] world1
     = (log_event float (EvClose 1 1008) world1, inr Closed)
  /\ get_history float jwt_decode "u1" "forged" world1
     = inl (HTTPException 401 "Invalid token").
Proof.
  split; [reflexivity|].
  pose proof (invalid_token_rejected float float_of_int float_of_str json_loads
                jwt_decode "forged" (HTTPException 401 "Invalid token") 1
                [Text position_text 100 all_ok] all_ok [] "u1" world1 eq_refl)
    as (_ & Hu & _ & Hq).
  split; assumption.
Defined.

Lemma only_subject_is_read_witness :
  jwt_decode2 "token-u1" = Some (mkClaims (Some "u1") (Some 0%Z) (Some 86400%Z))
  /\ jwt_decode2 "token-u1-elevated"
     = Some (mkClaims (Some "u1") (Some 1%Z) (Some 99999%Z))
  /\ websocket_admin float jwt_decode2 5 "token-u1" all_ok [] world1
     = websocket_admin float jwt_decode2 5 "token-u1-elevated" all_ok [] world1.
Proof.
  split; [reflexivity|]. split; [reflexivity|].
  apply (only_subject_is_read float float_of_int float_of_str json_loads
           jwt_decode2 "token-u1" "token-u1-elevated"
           (mkClaims (Some "u1") (Some 0%Z) (Some 86400%Z))
           (mkClaims (Some "u1") (Some 1%Z) (Some 99999%Z))
           5 [] all_ok [] "u1" world1 eq_refl eq_refl eq_refl).
Defined.

Lemma turn_leaves_other_users_witness :
  "u1" <> "u2"
  /\ latest (manager
               (fst (run_turn float float_of_int float_of_str json_loads
                       (mkTurn "u1" position_text 103 all_ok)
                       (run_schedule schedule3 world1))))
     !! "u2"
     = Some (mkSample (inject_Z 1) (inject_Z 2) 101).
Proof.
  split; [discriminate|].
  destruct (turn_leaves_other_users float float_of_int float_of_str json_loads
              (mkTurn "u1" position_text 103 all_ok)
              (run_schedule schedule3 world1) "u2") as (_ & Hl & _);
    [discriminate|].
  etransitivity; [exact Hl|reflexivity].
Defined.

Lemma history_buffer_bounded_witness :
  length (history_of float "u1" (run_schedule schedule3 world1)) <= 200
  /\ history_of float "u1"
       (run_schedule [mkTurn "u1" position_text 103 all_ok]
          (run_schedule schedule3 world1))
     = [mkSample lat1 lon1 100; mkSample lat1 lon1 102; mkSample lat1 lon1 103].
Proof.
  assert (Hlen : length (history_of float "u1" (run_schedule schedule3 world1))
                 <= 200) by (vm_compute; lia).
  split; [exact Hlen|].
  destruct (history_buffer_bounded float float_of_int float_of_str json_loads
              "u1" [mkTurn "u1" position_text 103 all_ok]
              (run_schedule schedule3 world1) Hlen) as [Heq _].
  rewrite Heq. reflexivity.
Defined.

Lemma latest_is_newest_of_history_witness :
  last (history_of float "u1" world1) = latest (manager world1) !! "u1"
  /\ last (history_of float "u1" (run_schedule schedule3 world1))
     = latest (manager (run_schedule schedule3 world1)) !! "u1".
Proof.
  split; [reflexivity|].
  apply (latest_is_newest_of_history float float_of_int float_of_str json_loads
           "u1" schedule3 world1).
  reflexivity.
Defined.

Lemma buffer_is_tail_of_store_witness :
  history_of float "u1" world1 = []
  /\ history_of float "u1" (run_schedule schedule3 world1)
     = drop (length (stored_for float "u1" (run_schedule schedule3 world1)) - 200)
            (map (row_sample float)
                 (stored_for float "u1" (run_schedule schedule3 world1))).
Proof.
  split; [reflexivity|].
  apply (buffer_is_tail_of_store float float_of_int float_of_str json_loads
           "u1" schedule3 world1).
  reflexivity.
Defined.

Local Abbreviation turns2 :=
  [mkTurn "u1" position_text 100 all_ok; mkTurn "u1" strings_text 101 all_but_8].
Local Abbreviation bad_turn := (mkTurn "u1" "{'lat': 37.1}" 102 all_ok).

Lemma handler_runs_its_turns_witness :
  verify_token jwt_decode "token-u1" = inr "u1"
  /\ accepted float float_of_int float_of_str json_loads bad_turn = false
  /\ run_user 1 "token-u1" (map turn_input turns2) world1
     = (run_schedule turns2 (connected float "u1" 1 world1), inr Waiting)
  /\ run_user 1 "token-u1"
       (map turn_input turns2 ++ turn_input bad_turn
          :: [Text position_text 103 all_ok]) world1
     = (run_schedule (turns2 ++ [bad_turn]) (connected float "u1" 1 world1),
        inr Closed).
Proof.
  split; [reflexivity|]. split; [reflexivity|].
  apply (handler_runs_its_turns float float_of_int float_of_str json_loads
           jwt_decode 1 "token-u1" "u1" turns2 bad_turn
           [Text position_text 103 all_ok] world1);
    reflexivity.
Defined.

Lemma only_malformed_or_overflow_is_refused_witness :
  parse_position float float_of_int float_of_str json_loads "not json"
  = inl JSONDecodeError
  /\ (malformed float float_of_str json_loads "not json" = true
      \/ JSONDecodeError = OverflowError).
Proof.
  split; [reflexivity|].
  apply (only_malformed_or_overflow_is_refused float float_of_int float_of_str
           json_loads "not json" JSONDecodeError).
  reflexivity.
Defined.

Lemma replaced_connection_unregisters_successor_witness :
  verify_token jwt_decode "token-u1" = inr "u1"
  /\ parse_position float float_of_int float_of_str json_loads position_text
     = inr (lat1, lon1)
  /\ active_connections
       (manager (fst (run_user 2 "token-u1" []
                        (fst (run_user 1 "token-u1" [] world1)))))
     !! "u1" = Some 2
  /\ active_connections
       (manager
          (fst (run_session "u1" [Disconnect]
                  (fst (run_user 2 "token-u1" []
                          (fst (run_user 1 "token-u1" [] world1)))))))
     !! "u1" = None.
Proof.
  split; [reflexivity|]. split; [reflexivity|].
  destruct (replaced_connection_unregisters_successor float float_of_int
              float_of_str json_loads jwt_decode 2 "token-u1" "u1" []
              position_text 104 all_ok lat1 lon1
              (fst (run_user 1 "token-u1" [] world1)) eq_refl eq_refl)
    as (H2 & _ & Hgone & _).
  split; [exact H2|exact Hgone].
Defined.

Local Abbreviation requests :=
  [("u2", "pw", "$2b$"); ("admin1", "takeover", "$2b$"); ("u1", "again", "$2b$")].

Lemma registrations_never_grant_admin_witness :
  db_first_user float "admin1" (run_registrations float pwd_hash requests world0)
  = Some admin_row
  /\ user_is_admin admin_row <> 0%Z
  /\ db_first_user float "admin1" world0 = Some admin_row.
Proof.
  split; [reflexivity|]. split; [discriminate|].
  apply (registrations_never_grant_admin float pwd_hash requests world0
           "admin1" admin_row); [reflexivity|discriminate].
Defined.

(** The three requests above add one row: the two taken names are
    refused. *)
Example registrations_example :
  users float (run_registrations float pwd_hash requests world0)
  = [admin_row; u1_row; mkUser 3 "u2" "$2b$pw" 0].
Proof. reflexivity. Qed.

Lemma usernames_stay_unique_witness :
  NoDup (usernames float world0)
  /\ NoDup (usernames float
              (run_registrations float pwd_hash requests
                 (fst (create_admin float pwd_hash "$2b$" world0)))).
Proof.
  assert (Hnd : NoDup (usernames float world0))
    by (apply (bool_decide_unpack _); vm_compute; exact I).
  split; [exact Hnd|].
  apply (usernames_stay_unique float pwd_hash "$2b$" requests world0 Hnd).
Defined.

Lemma login_failure_is_uniform_witness :
  pwd_verify "nope" (user_hashed_password u1_row) = false
  /\ run_login "u1" "nope" 0 world0
     = (world0, inl (HTTPException 400 "Incorrect username or password"))
  /\ db_first_user float "nobody" world0 = None
  /\ run_login "nobody" "nope" 0 world0
     = (world0, inl (HTTPException 400 "Incorrect username or password")).
Proof.
  split; [reflexivity|].
  split.
  - apply (login_failure_is_uniform float jwt_encode pwd_verify "u1" "nope" 0
             world0).
    right. exists u1_row. split; reflexivity.
  - split; [reflexivity|].
    apply (login_failure_is_uniform float jwt_encode pwd_verify "nobody" "nope"
             0 world0).
    left. reflexivity.
Defined.

Lemma login_token_verifies_witness :
  db_first_user float "u1" world0 = Some u1_row
  /\ pwd_verify "secret" (user_hashed_password u1_row) = true
  /\ jwt_decode (jwt_encode (mkClaims (Some "u1") (Some 0%Z) (Some 86400%Z)))
     = Some (mkClaims (Some "u1") (Some 0%Z) (Some 86400%Z))
  /\ run_login "u1" "secret" 0 world0
     = (world0, inr (mkTokenResponse "token-u1" "bearer"))
  /\ verify_token jwt_decode "token-u1" = inr "u1".
Proof.
  split; [reflexivity|]. split; [reflexivity|]. split; [reflexivity|].
  apply (login_token_verifies float jwt_decode jwt_encode pwd_verify "u1"
           "secret" 0 world0 u1_row eq_refl eq_refl eq_refl).
Defined.

Local Abbreviation world4 := (initial_world float [admin_row] []).

Lemma registered_user_streams_but_is_no_admin_witness :
  db_first_user float "u1" world4 = None
  /\ pwd_verify "secret" (pwd_hash "$2b$" "secret") = true
  /\ run_login "u1" "secret" 0 (fst (run_register "u1" "secret" "$2b$" world4))
     = (fst (run_register "u1" "secret" "$2b$" world4),
        inr (mkTokenResponse "token-u1" "bearer"))
  /\ snd (run_user 1 "token-u1" []
            (fst (run_register "u1" "secret" "$2b$" world4)))
     = inr Waiting
  /\ snd (run_admin 1 "token-u1" all_ok []
            (fst (run_register "u1" "secret" "$2b$" world4)))
     = inr Closed.
Proof.
  split; [reflexivity|]. split; [reflexivity|].
  destruct (registered_user_streams_but_is_no_admin float float_of_int
              float_of_str json_loads jwt_decode jwt_encode pwd_hash pwd_verify
              "u1" "secret" "$2b$" 0 1 all_ok [] world4
              eq_refl eq_refl eq_refl) as (Hl & Hu & Ha).
  split; [exact Hl|].
  split; [exact (f_equal snd Hu)|exact (f_equal snd Ha)].
Defined.

(** C6 as stated fails: a text whose [lat] and [lon] are JSON booleans,
    or strings, is not a position in the sense of the specification
    (they are not numbers), yet the loop converts them, records the
    sample and goes on waiting; the connection stays registered. *)
Lemma non_numeric_coordinates_are_accepted :
  spec_malformed float json_loads2 "{'lat': true, 'lon': false}" = true
  /\ websocket_user float float_of_int float_of_str json_loads2 jwt_decode
       1 "token-u1" [Text "{'lat': true, 'lon': false}" 100 all_ok] world1
     = (run_turns float float_of_int float_of_str json_loads2
          [mkTurn "u1" "{'lat': true, 'lon': false}" 100 all_ok]
          (connected float "u1" 1 world1),
        inr Waiting)
  /\ active_connections
       (manager
          (fst (websocket_user float float_of_int float_of_str json_loads2
                  jwt_decode 1 "token-u1"
                  [Text "{'lat': true, 'lon': false}" 100 all_ok] world1)))
     !! "u1" = Some 1
  /\ latest
       (manager
          (fst (websocket_user float float_of_int float_of_str json_loads2
                  jwt_decode 1 "token-u1"
                  [Text "{'lat': true, 'lon': false}" 100 all_ok] world1)))
     !! "u1" = Some (mkSample (inject_Z 1) (inject_Z 0) 100)
  /\ spec_malformed float json_loads2 strings_text = true
  /\ snd (websocket_user float float_of_int float_of_str json_loads2 jwt_decode
            1 "token-u1" [Text strings_text 100 all_ok] world1)
     = inr Waiting.
Proof. repeat split; reflexivity. Qed.

Local Abbreviation run_steps :=
  (steps float float_of_int float_of_str json_loads).
Local Abbreviation overlapping :=
  [Recv "u1" position_text 100; Recv "u2" "{'lat': 1, 'lon': 2}" 101;
   Send "u2" all_ok; Send "u1" all_ok; Send "u1" all_but_8; Send "u1" all_ok;
   Recv "u1" strings_text 102; Send "u2" all_ok; Send "u1" all_ok].


(** In that run the update of ["u2"] reaches observer 7 before the first
    update of ["u1"], whose row was stored first; the two updates of
    ["u1"] arrive in their own order. *)
Example overlapping_broadcasts_example :
  received float 7 (fst (run_steps overlapping (world1, ∅)))
  = [update_payload float "u2" (inject_Z 1) (inject_Z 2) 101;
     update1_at 100; update1_at 102]
  /\ received_from float "u1" 7 (fst (run_steps overlapping (world1, ∅)))
     = [update1_at 100; update1_at 102]
  /\ map (loc_username float) (locations (fst (run_steps overlapping (world1, ∅))))
     = ["u1"; "u2"; "u1"].
Proof. repeat split; reflexivity. Qed.

Lemma turn_is_an_uninterrupted_run_witness :
  in_broadcast float "u1" ∅ = false
  /\ accepted float float_of_int float_of_str json_loads
       (mkTurn "u1" position_text 100 all_but_8) = true
  /\ fst (run_steps
            (Recv "u1" position_text 100 :: repeat (Send "u1" all_but_8) 3)
            (world1, ∅))
     = fst (run_turn float float_of_int float_of_str json_loads
              (mkTurn "u1" position_text 100 all_but_8) world1).
Proof.
  split; [reflexivity|]. split; [reflexivity|].
  apply (turn_is_an_uninterrupted_run float float_of_int float_of_str
           json_loads (mkTurn "u1" position_text 100 all_but_8) world1 ∅);
    reflexivity.
Defined.

End Examples.
